(** * Verification of the city temperature dashboard (streamlit_app.py)

    A shallow embedding of [fetch_weather_data] and of the page script
    that consumes its result.  Python values are modelled by an inductive
    type, Python floats by IEEE-754 binary64 ([spec_float] with
    precision 53 and maximal exponent 1024), exceptions by an error
    monad over the session state of the running page. *)

From Stdlib Require Import ZArith List String Ascii Bool Lia QArith.
From Stdlib Require Import Floats.SpecFloat DecimalString.
Import ListNotations.

Local Open Scope string_scope.
Local Open Scope Z_scope.

(** ** Python values *)

Module Py.

(** binary64, the format of a Python [float] *)
Definition prec : Z := 53.
Definition emax : Z := 1024.

Definition float := spec_float.

(** The values [response.json()] can return, which are also the values
    stored in the rows. *)
#[warnings="-register-all"]
Inductive value : Type :=
| PNone
| PBool (b : bool)
| PInt (z : Z)
| PFloat (f : float)
| PStr (s : string)
| PList (l : list value)
| PDict (d : list (string * value)).

(** Exception classes raised on the paths of the script.  All but
    [RerunException] derive from [Exception]; [RerunException] is the
    script-control exception of [st.rerun()], which derives from
    [BaseException]. *)
Inductive exn_class : Type :=
| RequestException
| HTTPError
| JSONDecodeError
| KeyError
| TypeError
| ValueError
| RerunException.

Record exn : Type := mk_exn { exn_class_of : exn_class; exn_str : string }.

Definition is_Exception (e : exn) : bool :=
  match exn_class_of e with
  | RerunException => false
  | _ => true
  end.

Inductive result (A : Type) : Type :=
| Ok (a : A)
| Raise (e : exn).
Arguments Ok {A} a.
Arguments Raise {A} e.

Definition type_name (v : value) : string :=
  match v with
  | PNone => "NoneType"
  | PBool _ => "bool"
  | PInt _ => "int"
  | PFloat _ => "float"
  | PStr _ => "str"
  | PList _ => "list"
  | PDict _ => "dict"
  end.

(** [float(n)] for an integer: the nearest binary64, exact below 2^53 *)
Definition float_of_Z (n : Z) : float := binary_normalize prec emax n 0 false.

(** a decimal literal [m]e-[k], as the nearest binary64 to m / 10^k
    (both operands of the division are exact for the literals used) *)
Definition float_of_decimal (m : Z) (k : Z) : float :=
  SFdiv prec emax (float_of_Z m) (float_of_Z (10 ^ k)).

(** [v >= n] for an integer constant [n] *)
Definition ge (v : value) (n : Z) : result bool :=
  match v with
  | PBool b => Ok (n <=? Z.b2z b)
  | PInt z => Ok (n <=? z)
  | PFloat f => Ok (SFleb (float_of_Z n) f)
  | _ => Raise (mk_exn TypeError
           ("'>=' not supported between instances of '" ++ type_name v
            ++ "' and 'int'"))
  end.

Fixpoint repeat_string (s : string) (n : nat) : string :=
  match n with
  | O => ""
  | S n' => s ++ repeat_string s n'
  end.

(** [v * n] for an integer constant [n] *)
Definition mul (v : value) (n : Z) : result value :=
  match v with
  | PBool b => Ok (PInt (Z.b2z b * n))
  | PInt z => Ok (PInt (z * n))
  | PFloat f => Ok (PFloat (SFmul prec emax f (float_of_Z n)))
  | PStr s => Ok (PStr (repeat_string s (Z.to_nat n)))
  | PList l => Ok (PList (List.concat (List.repeat l (Z.to_nat n))))
  | _ => Raise (mk_exn TypeError
           ("unsupported operand type(s) for *: '" ++ type_name v
            ++ "' and 'int'"))
  end.

Fixpoint dict_get (d : list (string * value)) (k : string) : option value :=
  match d with
  | [] => None
  | (k', v) :: d' => if String.eqb k' k then Some v else dict_get d' k
  end.

(** [v[k]] for a string key [k] *)
Definition getitem (v : value) (k : string) : result value :=
  match v with
  | PDict d =>
      match dict_get d k with
      | Some x => Ok x
      | None => Raise (mk_exn KeyError ("'" ++ k ++ "'"))
      end
  | PList _ =>
      Raise (mk_exn TypeError "list indices must be integers or slices, not str")
  | PStr _ =>
      Raise (mk_exn TypeError "string indices must be integers, not 'str'")
  | _ =>
      Raise (mk_exn TypeError
               ("'" ++ type_name v ++ "' object is not subscriptable"))
  end.

End Py.

(** ** The [datetime] class *)

Module Datetime.

Definition is_leap (year : Z) : bool :=
  (year mod 4 =? 0) && (negb (year mod 100 =? 0) || (year mod 400 =? 0)).

Definition days_in_month (year month : Z) : Z :=
  if (month =? 2) && is_leap year then 29
  else nth (Z.to_nat month) [-1; 31; 28; 31; 30; 31; 30; 31; 31; 30; 31; 30; 31] (-1).

Definition between (lo x hi : Z) : bool := (lo <=? x) && (x <=? hi).

(** the checks of the constructor ([_check_date_fields],
    [_check_time_fields]) and of [timezone] (an offset strictly within
    24 hours, here in microseconds) *)
Definition check_fields (year month day hour minute second microsecond : Z)
    (tz : option Z) : bool :=
  between 1 year 9999 && between 1 month 12
  && between 1 day (days_in_month year month)
  && between 0 hour 23 && between 0 minute 59 && between 0 second 59
  && between 0 microsecond 999999
  && match tz with
     | None => true
     | Some off => (-86400000000 <? off) && (off <? 86400000000)
     end.

(** A [datetime] object.  The constructor refuses fields out of range, so
    every object carries the evidence that its fields passed the check. *)
Record datetime : Type := mk_datetime {
  year : Z;
  month : Z;
  day : Z;
  hour : Z;
  minute : Z;
  second : Z;
  microsecond : Z;
  tzinfo : option Z;
  fields_ok :
    check_fields year month day hour minute second microsecond tzinfo = true
}.

(** [datetime(year, month, day, hour, minute, second, microsecond, tzinfo)]:
    [inl] is the message of the [ValueError] *)
Definition new (y mo d h mi s us : Z) (tz : option Z) : string + datetime :=
  match check_fields y mo d h mi s us tz as b
        return check_fields y mo d h mi s us tz = b -> string + datetime with
  | true => fun ok => inr (mk_datetime y mo d h mi s us tz ok)
  | false => fun _ => inl "field out of range"
  end eq_refl.

(** *** Formatting *)

Definition str_of_Z (z : Z) : string := NilZero.string_of_int (Z.to_int z).

(** left padding with zeros up to [width] characters *)
Definition zfill (width : nat) (s : string) : string :=
  Py.repeat_string "0" (width - String.length s) ++ s.

(** one directive of [strftime], which hands the format to the C
    library: [%Y] is the year in decimal as it is, without leading zeros
    for a year below 1000, and the others are zero-padded on two
    digits *)
Definition directive (c : ascii) (dt : datetime) : string :=
  match c with
  | "Y"%char => str_of_Z (year dt)
  | "m"%char => zfill 2 (str_of_Z (month dt))
  | "d"%char => zfill 2 (str_of_Z (day dt))
  | "H"%char => zfill 2 (str_of_Z (hour dt))
  | "M"%char => zfill 2 (str_of_Z (minute dt))
  | "S"%char => zfill 2 (str_of_Z (second dt))
  | "%"%char => "%"
  | _ => String "%" (String c "")
  end.

Fixpoint strftime (dt : datetime) (fmt : string) : string :=
  match fmt with
  | String "%" (String c rest) => directive c dt ++ strftime dt rest
  | String c rest => String c (strftime dt rest)
  | EmptyString => ""
  end.

(** *** A reference parser

    [datetime.fromisoformat] belongs to the library and its grammar grew
    over the versions of Python; the pipeline below takes it as a
    parameter.  This instance accepts the strings that
    [datetime.isoformat()] emits,
    [YYYY-MM-DD[*HH[:MM[:SS[.fff[fff]]]][+HH:MM[:SS[.ffffff]]]]],
    which every version accepts with the same result.  It is narrower
    than the library from Python 3.11 on, which also accepts [Z],
    offsets without a colon, the basic format, week dates and fractions
    of any length: those are parse errors here.  It is used only to run
    the pipeline on concrete responses. *)

Definition digit_of (c : ascii) : option Z :=
  let n := Z.of_nat (nat_of_ascii c) in
  if between 48 n 57 then Some (n - 48) else None.

(** exactly [n] ASCII digits *)
Fixpoint digits (n : nat) (acc : Z) (l : list ascii) : option (Z * list ascii) :=
  match n with
  | O => Some (acc, l)
  | S n' =>
      match l with
      | c :: l' =>
          match digit_of c with
          | Some d => digits n' (10 * acc + d) l'
          | None => None
          end
      | [] => None
      end
  end.

(** [HH[:MM[:SS[.fff[fff]]]]], returning what follows it *)
Definition parse_hh_mm_ss_ff (l : list ascii)
    : option (Z * Z * Z * Z * list ascii) :=
  match digits 2 0 l with
  | Some (h, ":"%char :: l1) =>
      match digits 2 0 l1 with
      | Some (mi, ":"%char :: l2) =>
          match digits 2 0 l2 with
          | Some (s, "."%char :: l3) =>
              match digits 6 0 l3, digits 3 0 l3 with
              | Some (us, l4), _ => Some (h, mi, s, us, l4)
              | None, Some (ms, l4) => Some (h, mi, s, ms * 1000, l4)
              | None, None => None
              end
          | Some (s, l3) => Some (h, mi, s, 0, l3)
          | None => None
          end
      | Some (mi, l2) => Some (h, mi, 0, 0, l2)
      | None => None
      end
  | Some (h, l1) => Some (h, 0, 0, 0, l1)
  | None => None
  end.

Definition parse_offset (l : list ascii) : option (option Z) :=
  match l with
  | [] => Some None
  | sign :: tz =>
      if (Ascii.eqb sign "+" || Ascii.eqb sign "-")%bool then
        match List.length tz, parse_hh_mm_ss_ff tz with
        | (5 | 8 | 15)%nat, Some (h, mi, s, us, []) =>
            let off := ((h * 60 + mi) * 60 + s) * 1000000 + us in
            Some (Some (if Ascii.eqb sign "-" then - off else off))
        | _, _ => None
        end
      else None
  end.

Definition invalid (s : string) : string :=
  "Invalid isoformat string: '" ++ s ++ "'".

Definition fromisoformat (s : string) : string + datetime :=
  match digits 4 0 (list_ascii_of_string s) with
  | Some (y, "-"%char :: l1) =>
      match digits 2 0 l1 with
      | Some (mo, "-"%char :: l2) =>
          match digits 2 0 l2 with
          | Some (d, []) => new y mo d 0 0 0 0 None
          | Some (d, _ :: l3) =>
              match parse_hh_mm_ss_ff l3 with
              | Some (h, mi, sec, us, l4) =>
                  match parse_offset l4 with
                  | Some tz => new y mo d h mi sec us tz
                  | None => inl (invalid s)
                  end
              | None => inl (invalid s)
              end
          | None => inl (invalid s)
          end
      | _ => inl (invalid s)
      end
  | _ => inl (invalid s)
  end.

End Datetime.

Import Py.

(** ** Exceptions as values: the pure error monad *)

Definition bind_result {A B : Type} (r : result A) (k : A -> result B)
    : result B :=
  match r with
  | Ok a => k a
  | Raise e => Raise e
  end.

Notation "'let*' x ':=' r 'in' k" := (bind_result r (fun x => k))
  (at level 10, x name, r at level 100, k at level 200).

(** ** External collaborators *)

Record Request : Type := mk_Request {
  url : string;
  params : list (string * value)
}.

(** What the script reads of a [requests.Response]: the status line, the
    final URL, and the outcome of [response.json()] ([inl] is the message
    of the [JSONDecodeError]). *)
Record Response : Type := mk_Response {
  status_code : Z;
  reason : string;
  response_url : string;
  json_body : string + value
}.

(** The environment of one run: the network and the ISO-8601 parser of
    the standard library.  [http_get k req] is the outcome of the call of
    [requests.get] that follows [k] earlier calls ([inl] is the message of
    the [RequestException] it raises); [fromisoformat] answers [inl] with
    the message of a [ValueError]. *)
Record Env : Type := mk_Env {
  http_get : nat -> Request -> string + Response;
  fromisoformat : string -> string + Datetime.datetime
}.

(** ** Rows and tables *)

Record Coords : Type := mk_Coords { coords_lat : float; coords_lon : float }.

(** One dict appended to [weather_info] *)
Record Row : Type := mk_Row {
  City : string;
  lat : float;
  lon : float;
  Temperature : value;
  Time : string;
  color : list Z;
  elevation : value
}.

Definition row_keys : list string :=
  ["City"; "lat"; "lon"; "Temperature"; "Time"; "color"; "elevation"].

(** A [pandas.DataFrame] built from a list of dicts: the columns are the
    keys met in the dicts, so a frame built from the empty list has no
    column at all.  [records] are the dicts the frame was built from;
    the cells the frame holds once the type of each column is inferred
    are [stored_rows] below. *)
Record DataFrame : Type := mk_DataFrame {
  columns : list string;
  records : list Row
}.

Definition pd_DataFrame (weather_info : list Row) : DataFrame :=
  {| columns := match weather_info with [] => [] | _ :: _ => row_keys end;
     records := weather_info |}.

Definition len (df : DataFrame) : nat := List.length (records df).

Definition has_column (df : DataFrame) (c : string) : bool :=
  existsb (String.eqb c) (columns df).

(** [df[[c1, ..., cn]]]: every label has to be a column of the frame
    (the text of the [KeyError] is shortened here; that of pandas lists
    the labels) *)
Definition getitem_columns (df : DataFrame) (cols : list string)
    : result DataFrame :=
  if forallb (has_column df) cols
  then Ok {| columns := cols; records := records df |}
  else Raise (mk_exn KeyError
                (if existsb (has_column df) cols
                 then "some labels are not in the [columns]"
                 else "None of the labels are in the [columns]")).

(** *** The types of the numeric columns

    The constructor infers a type for every column.  Strings and lists
    stay Python objects and a column of floats is held as it is.  A
    column of Python numbers becomes a column of binary64 when it holds
    at least one float and at least one int, no bool, and every int
    fits a 64-bit integer (signed or unsigned, not both kinds at once):
    each int is then converted to the nearest float.  In every other
    case the values are held unchanged (as 64-bit integers, as
    booleans, or as Python objects). *)

Definition is_float (v : value) : bool :=
  match v with PFloat _ => true | _ => false end.

Definition is_int (v : value) : bool :=
  match v with PInt _ => true | _ => false end.

Definition is_bool (v : value) : bool :=
  match v with PBool _ => true | _ => false end.

Definition INT64_MIN : Z := - 2 ^ 63.
Definition INT64_MAX : Z := 2 ^ 63 - 1.
Definition UINT64_MAX : Z := 2 ^ 64 - 1.

(** an int that fits neither [int64] nor [uint64] *)
Definition too_large (v : value) : bool :=
  match v with
  | PInt n => (n <? INT64_MIN) || (UINT64_MAX <? n)
  | _ => false
  end.

(** an int that needs the sign of [int64] *)
Definition needs_sign (v : value) : bool :=
  match v with PInt n => n <? 0 | _ => false end.

(** an int that needs the range of [uint64] *)
Definition needs_unsigned (v : value) : bool :=
  match v with PInt n => INT64_MAX <? n | _ => false end.

Definition becomes_float64 (column : list value) : bool :=
  existsb is_float column && existsb is_int column
  && negb (existsb is_bool column)
  && negb (existsb too_large column)
  && negb (existsb needs_sign column && existsb needs_unsigned column).

(** the conversion of one value of a [float64] column *)
Definition as_float64 (v : value) : value :=
  match v with
  | PInt n => PFloat (float_of_Z n)
  | _ => v
  end.

(** a row as the frame holds it, given the types inferred for the
    [Temperature] and [elevation] columns *)
Definition typed_row (float_temperature float_elevation : bool) (r : Row)
    : Row :=
  {| City := City r;
     lat := lat r;
     lon := lon r;
     Temperature := if float_temperature then as_float64 (Temperature r)
                    else Temperature r;
     Time := Time r;
     color := color r;
     elevation := if float_elevation then as_float64 (elevation r)
                  else elevation r |}.

(** the rows of the frame, as read back from it *)
Definition stored_rows (df : DataFrame) : list Row :=
  map (typed_row (becomes_float64 (map Temperature (records df)))
         (becomes_float64 (map elevation (records df))))
    (records df).

(** ** The page and its session *)

Record Layer : Type := mk_Layer {
  layer_type : string;
  data : DataFrame;
  get_position : string;
  get_elevation : string;
  radius : Z;
  get_fill_color : string;
  pickable : bool;
  auto_highlight : bool
}.

Record ViewState : Type := mk_ViewState {
  latitude : float;
  longitude : float;
  zoom : float;
  pitch : Z;
  bearing : Z
}.

Record Deck : Type := mk_Deck {
  layers : list Layer;
  initial_view_state : ViewState;
  map_style : string;
  tooltip_html : string
}.

Inductive Element : Type :=
| Title (text : string)
| Subheader (text : string)
| Error (text : string)
| Info (text : string)
| Table (df : DataFrame)
| Button (label : string)
| PydeckChart (deck : Deck).

(** What [st.cache_data] keeps for the one cached call: when it was
    stored, the value returned, and the elements the call drew (they are
    drawn again when the value is served from the cache). *)
Record CacheEntry : Type := mk_CacheEntry {
  stored_at : Z;
  cached_value : DataFrame;
  cached_elements : list Element
}.

Record Session : Type := mk_Session {
  requests_sent : list Request;
  page : list Element;
  cache : option CacheEntry
}.

(** ** State and exceptions: the monad of the script *)

Definition M (A : Type) : Type := Session -> result A * Session.

Definition ret {A : Type} (a : A) : M A := fun s => (Ok a, s).

Definition bind {A B : Type} (m : M A) (k : A -> M B) : M B :=
  fun s =>
    match m s with
    | (Ok a, s') => k a s'
    | (Raise e, s') => (Raise e, s')
    end.

Definition lift {A : Type} (r : result A) : M A := fun s => (r, s).

Notation "x <- m ;; k" := (bind m (fun x => k))
  (at level 61, m at next level, right associativity).
Notation "m ;;; k" := (bind m (fun _ => k))
  (at level 61, right associativity).

(** [try: body except Exception as e: handler(e)] *)
Definition try_except_Exception {A : Type} (body : M A) (handler : exn -> M A)
    : M A :=
  fun s =>
    match body s with
    | (Raise e, s') =>
        if is_Exception e then handler e s' else (Raise e, s')
    | r => r
    end.

Definition draw (e : Element) : M unit :=
  fun s => (Ok tt, {| requests_sent := requests_sent s;
                      page := (page s ++ [e])%list;
                      cache := cache s |}).

Definition st_error (text : string) : M unit := draw (Error text).

(** [requests.get(url, params=params)] *)
Definition requests_get (env : Env) (u : string)
    (ps : list (string * value)) : M Response :=
  fun s =>
    let req := {| url := u; params := ps |} in
    let s' := {| requests_sent := (requests_sent s ++ [req])%list;
                 page := page s;
                 cache := cache s |} in
    match http_get env (List.length (requests_sent s)) req with
    | inl msg => (Raise (mk_exn RequestException msg), s')
    | inr response => (Ok response, s')
    end.

(** [response.raise_for_status()] *)
Definition raise_for_status (response : Response) : result unit :=
  let status := status_code response in
  let http_error_msg :=
    if (400 <=? status) && (status <? 500) then
      Datetime.str_of_Z status ++ " Client Error: " ++ reason response
      ++ " for url: " ++ response_url response
    else if (500 <=? status) && (status <? 600) then
      Datetime.str_of_Z status ++ " Server Error: " ++ reason response
      ++ " for url: " ++ response_url response
    else "" in
  if String.eqb http_error_msg "" then Ok tt
  else Raise (mk_exn HTTPError http_error_msg).

(** [response.json()] *)
Definition json (response : Response) : result value :=
  match json_body response with
  | inl msg => Raise (mk_exn JSONDecodeError msg)
  | inr v => Ok v
  end.

(** [datetime.fromisoformat(v)] *)
Definition datetime_fromisoformat (env : Env) (v : value)
    : result Datetime.datetime :=
  match v with
  | PStr s =>
      match fromisoformat env s with
      | inl msg => Raise (mk_exn ValueError msg)
      | inr dt => Ok dt
      end
  | _ => Raise (mk_exn TypeError "fromisoformat: argument must be str")
  end.

(** ** The script *)

Definition target_cities : list (string * Coords) :=
  [ ("Fukuoka",   {| coords_lat := float_of_decimal 335904 4;
                     coords_lon := float_of_decimal 1304017 4 |});
    ("Saga",      {| coords_lat := float_of_decimal 332494 4;
                     coords_lon := float_of_decimal 1302974 4 |});
    ("Nagasaki",  {| coords_lat := float_of_decimal 327450 4;
                     coords_lon := float_of_decimal 1298739 4 |});
    ("Kumamoto",  {| coords_lat := float_of_decimal 327900 4;
                     coords_lon := float_of_decimal 1307420 4 |});
    ("Oita",      {| coords_lat := float_of_decimal 332381 4;
                     coords_lon := float_of_decimal 1316119 4 |});
    ("Miyazaki",  {| coords_lat := float_of_decimal 319110 4;
                     coords_lon := float_of_decimal 1314240 4 |});
    ("Kagoshima", {| coords_lat := float_of_decimal 315600 4;
                     coords_lon := float_of_decimal 1305580 4 |});
    ("Osaka",     {| coords_lat := float_of_decimal 346937 4;
                     coords_lon := float_of_decimal 1355023 4 |});
    ("Tokyo",     {| coords_lat := float_of_decimal 356895 4;
                     coords_lon := float_of_decimal 1396917 4 |}) ].

Definition BASE_URL : string := "https://api.open-meteo.com/v1/forecast".

(** the [params] dict of one city *)
Definition params_of (coords : Coords) : list (string * value) :=
  [ ("latitude", PFloat (coords_lat coords));
    ("longitude", PFloat (coords_lon coords));
    ("current", PStr "temperature_2m");
    ("timezone", PStr "Asia/Tokyo") ].

(** the [if]/[elif]/[else] on the temperature *)
Definition color_of (temp : value) : result (list Z) :=
  let* hot := ge temp 20 in
  if hot then Ok [255; 100; 0; 200]
  else
    let* mild := ge temp 10 in
    if mild then Ok [255; 200; 0; 200]
    else Ok [0; 150; 255; 200].

(** The [try] block after the request has returned: from
    [raise_for_status] to the dict that is appended. *)
Definition reading (env : Env) (city : string) (coords : Coords)
    (response : Response) : result Row :=
  let* _ := raise_for_status response in
  let* data := json response in
  let* current := getitem data "current" in
  let* time := getitem current "time" in
  let* dt := datetime_fromisoformat env time in
  let time_str := Datetime.strftime dt "%Y/%m/%d %H:%M" in
  let* current' := getitem data "current" in
  let* temp := getitem current' "temperature_2m" in
  let* color := color_of temp in
  let* elevation := mul temp 5000 in
  Ok {| City := city;
        lat := coords_lat coords;
        lon := coords_lon coords;
        Temperature := temp;
        Time := time_str;
        color := color;
        elevation := elevation |}.

(** one turn of the [for] loop: [weather_info] before and after *)
Definition visit (env : Env) (weather_info : list Row)
    (item : string * Coords) : M (list Row) :=
  let (city, coords) := item in
  let params := params_of coords in
  try_except_Exception
    (response <- requests_get env BASE_URL params ;;
     row <- lift (reading env city coords response) ;;
     ret (weather_info ++ [row])%list)
    (fun e =>
       st_error ("Error fetching " ++ city ++ ": " ++ exn_str e) ;;;
       ret weather_info).

Fixpoint for_each (env : Env) (items : list (string * Coords))
    (weather_info : list Row) : M (list Row) :=
  match items with
  | [] => ret weather_info
  | item :: rest =>
      weather_info' <- visit env weather_info item ;;
      for_each env rest weather_info'
  end.

(** the body of [fetch_weather_data], over any table of cities *)
Definition fetch_weather_data_over (items : list (string * Coords))
    (env : Env) : M DataFrame :=
  weather_info <- for_each env items [] ;;
  ret (pd_DataFrame weather_info).

(** [@st.cache_data(ttl=...)]: a stored value younger than [ttl] is
    served, with the elements its computation drew; otherwise the function
    runs, and its value is stored if it returns. *)
Definition st_cache_data (ttl : Z) (f : M DataFrame) (now : Z) : M DataFrame :=
  fun s =>
    let compute :=
      match f {| requests_sent := requests_sent s; page := [];
                 cache := cache s |} with
      | (Ok df, s') =>
          (Ok df, {| requests_sent := requests_sent s';
                     page := (page s ++ page s')%list;
                     cache := Some {| stored_at := now;
                                      cached_value := df;
                                      cached_elements := page s' |} |})
      | (Raise e, s') =>
          (Raise e, {| requests_sent := requests_sent s';
                       page := (page s ++ page s')%list;
                       cache := cache s' |})
      end in
    match cache s with
    | Some entry =>
        if now - stored_at entry <? ttl then
          (Ok (cached_value entry),
           {| requests_sent := requests_sent s;
              page := (page s ++ cached_elements entry)%list;
              cache := cache s |})
        else compute
    | None => compute
    end.

(** [st.cache_data.clear()] *)
Definition st_cache_data_clear : M unit :=
  fun s => (Ok tt, {| requests_sent := requests_sent s;
                      page := page s;
                      cache := None |}).

(** [st.rerun()] *)
Definition st_rerun : M unit :=
  fun s => (Raise (mk_exn RerunException ""), s).

(** the two statements under [if st.button(...)]: what pressing the
    refresh button does *)
Definition refresh : M unit := st_cache_data_clear ;;; st_rerun.

(** [st.button(label)]: draws the button and tells whether this run was
    started by a click on it *)
Definition st_button (label : string) (clicked : bool) : M bool :=
  draw (Button label) ;;; ret clicked.

(** the decorated function, as the script calls it *)
Definition fetch_weather_data (env : Env) (now : Z) : M DataFrame :=
  st_cache_data 600 (fetch_weather_data_over target_cities env) now.

Definition view_state : ViewState :=
  {| latitude := float_of_decimal 335 1;
     longitude := float_of_decimal 1345 1;
     zoom := float_of_decimal 55 1;
     pitch := 50;
     bearing := 0 |}.

Definition column_layer (df : DataFrame) : Layer :=
  {| layer_type := "ColumnLayer";
     data := df;
     get_position := "[lon, lat]";
     get_elevation := "elevation";
     radius := 15000;
     get_fill_color := "color";
     pickable := true;
     auto_highlight := true |}.

(** One run of the script from top to bottom, at time [now]; [clicked]
    tells whether the run was started by the refresh button. *)
Definition script (env : Env) (now : Z) (clicked : bool) : M unit :=
  draw (Title "主要都市の現在気温 3Dビジュアライゼーション") ;;;
  df <- fetch_weather_data env now ;;
  draw (Subheader "📊 都市別データ") ;;;
  listing <- lift (getitem_columns df ["City"; "Temperature"; "Time"]) ;;
  draw (Table listing) ;;;
  draw (Info "※ 1度あたり 5,000m の高さで表示しています。") ;;;
  pressed <- st_button "データを更新" clicked ;;
  (if pressed : bool then refresh else ret tt) ;;;
  draw (Subheader "🌡️ 3D カラムマップ") ;;;
  draw (PydeckChart
          {| layers := [column_layer df];
             initial_view_state := view_state;
             map_style := "mapbox://styles/mapbox/light-v10";
             tooltip_html :=
               "<b>{City}</b><br>気温: {Temperature}°C<br>時刻: {Time}" |}).

(** a run starts on an empty page *)
Definition run_script (env : Env) (now : Z) (clicked : bool) (s : Session)
    : result unit * Session :=
  script env now clicked
    {| requests_sent := requests_sent s; page := []; cache := cache s |}.

(** What the browser gets for one user action: the script runs, and runs
    once more (at [now'], without a click) when it asked for a rerun; any
    other exception that leaves the script ends the run. *)
Definition serve (env : Env) (now now' : Z) (clicked : bool) (s : Session)
    : result unit * Session :=
  match run_script env now clicked s with
  | (Raise e, s') =>
      match exn_class_of e with
      | RerunException => run_script env now' false s'
      | _ => (Raise e, s')
      end
  | r => r
  end.

(** ** Vocabulary of the specification *)

(** the request the loop sends for one city *)
Definition request_for (item : string * Coords) : Request :=
  {| url := BASE_URL; params := params_of (snd item) |}.

(** The outcome of the [try] block for [item], when [k] requests were
    sent before it. *)
Definition attempt (env : Env) (k : nat) (item : string * Coords)
    : result Row :=
  match http_get env k (request_for item) with
  | inl msg => Raise (mk_exn RequestException msg)
  | inr response => reading env (fst item) (snd item) response
  end.

(** the outcomes of a whole table, each beside its city *)
Fixpoint attempts (env : Env) (k : nat) (items : list (string * Coords))
    : list (string * result Row) :=
  match items with
  | [] => []
  | item :: rest => (fst item, attempt env k item) :: attempts env (S k) rest
  end.

Definition succeeded (o : string * result Row) : bool :=
  match snd o with Ok _ => true | Raise _ => false end.

Definition failed (o : string * result Row) : bool := negb (succeeded o).

(** the rows of the outcomes that succeeded, in their order *)
Fixpoint rows_of (os : list (string * result Row)) : list Row :=
  match os with
  | [] => []
  | (_, Ok r) :: rest => r :: rows_of rest
  | (_, Raise _) :: rest => rows_of rest
  end.

(** the error boxes of the outcomes that failed, in their order *)
Fixpoint errors_of (os : list (string * result Row)) : list Element :=
  match os with
  | [] => []
  | (_, Ok _) :: rest => errors_of rest
  | (city, Raise e) :: rest =>
      Error ("Error fetching " ++ city ++ ": " ++ exn_str e) :: errors_of rest
  end.

(** the rows the table returned by a run of the batch was built from *)
Definition table_of (run : result DataFrame * Session) : list Row :=
  match fst run with
  | Ok df => records df
  | Raise _ => []
  end.

(** the cells of the table a run of the batch returns *)
Definition stored_table (run : result DataFrame * Session) : list Row :=
  match fst run with
  | Ok df => stored_rows df
  | Raise _ => []
  end.

Inductive ColorBucket : Type := high | mid | low.

Definition bucket_color (b : ColorBucket) : list Z :=
  match b with
  | high => [255; 100; 0; 200]
  | mid => [255; 200; 0; 200]
  | low => [0; 150; 255; 200]
  end.

(** the number a binary64 stands for, when it is finite *)
Definition Q_of_float (f : float) : option Q :=
  match f with
  | S754_zero _ => Some 0%Q
  | S754_finite s m e =>
      let sm := if s then Zneg m else Zpos m in
      Some match e with
           | Zneg p => Qmake sm (2 ^ p)
           | _ => inject_Z (sm * 2 ^ e)
           end
  | _ => None
  end.

(** the number a temperature stands for: an integer, a boolean counted
    as 0 or 1, or a finite float *)
Definition temperature_Q (v : value) : option Q :=
  match v with
  | PBool b => Some (inject_Z (Z.b2z b))
  | PInt z => Some (inject_Z z)
  | PFloat f => Q_of_float f
  | _ => None
  end.

(** a float is a binary64: mantissa and exponent within the format *)
Definition well_formed (v : value) : bool :=
  match v with
  | PFloat f => valid_binary prec emax f
  | _ => true
  end.

(** two values that are the same value, or stand for the same number *)
Definition same_number (a b : value) : Prop :=
  a = b
  \/ exists q q',
       temperature_Q a = Some q /\ temperature_Q b = Some q' /\ (q == q')%Q.

Definition is_digit (c : ascii) : bool :=
  match Datetime.digit_of c with Some _ => true | None => false end.

(** the shape [YYYY/MM/DD HH:MM] *)
Definition is_display_format (s : string) : bool :=
  match list_ascii_of_string s with
  | [y1; y2; y3; y4; s1; m1; m2; s2; d1; d2; s3; h1; h2; s4; n1; n2] =>
      forallb is_digit [y1; y2; y3; y4; m1; m2; d1; d2; h1; h2; n1; n2]
      && Ascii.eqb s1 "/" && Ascii.eqb s2 "/" && Ascii.eqb s3 " "
      && Ascii.eqb s4 ":"
  | _ => false
  end.

(** at most three characters *)
Definition at_most_three (s : string) : bool :=
  match s with
  | String _ (String _ (String _ (String _ _))) => false
  | _ => true
  end.

(** exactly [n] characters, all of them ASCII digits *)
Fixpoint digits_only (n : nat) (s : string) : bool :=
  match n, s with
  | O, EmptyString => true
  | S n', String c s' => is_digit c && digits_only n' s'
  | _, _ => false
  end.

(** the display string written field by field *)
Definition display_of (y mo d h mi : Z) : string :=
  Datetime.str_of_Z y ++ "/"
  ++ Datetime.zfill 2 (Datetime.str_of_Z mo) ++ "/"
  ++ Datetime.zfill 2 (Datetime.str_of_Z d) ++ " "
  ++ Datetime.zfill 2 (Datetime.str_of_Z h) ++ ":"
  ++ Datetime.zfill 2 (Datetime.str_of_Z mi).

Definition is_table (e : Element) : bool :=
  match e with Table _ => true | _ => false end.

Definition is_chart (e : Element) : bool :=
  match e with PydeckChart _ => true | _ => false end.

(** ** Concrete runs *)

Definition fresh : Session :=
  {| requests_sent := []; page := []; cache := None |}.

(** a well-formed answer of the weather service *)
Definition answer (temp : value) (time : string) : Response :=
  {| status_code := 200;
     reason := "OK";
     response_url := BASE_URL;
     json_body :=
       inr (PDict [("current",
                    PDict [("time", PStr time); ("temperature_2m", temp)])]) |}.

(** the service answers every city with the same reading *)
Definition env_steady (temp : value) (time : string) : Env :=
  {| http_get := fun _ _ => inr (answer temp time);
     fromisoformat := Datetime.fromisoformat |}.

(** the network is down: every request raises *)
Definition env_down : Env :=
  {| http_get := fun _ _ => inl "Connection refused";
     fromisoformat := Datetime.fromisoformat |}.

(** only the request that follows [bad] earlier ones raises *)
Definition env_one_down (bad : nat) (temp : value) (time : string) : Env :=
  {| http_get := fun k _ =>
       if Nat.eqb k bad then inl "Connection refused"
       else inr (answer temp time);
     fromisoformat := Datetime.fromisoformat |}.

(** the run of the batch behind the cache, when the cache does not
    answer *)
Definition miss (env : Env) (now : Z) (s : Session) : result DataFrame * Session :=
  let os := attempts env (List.length (requests_sent s)) target_cities in
  (Ok (pd_DataFrame (rows_of os)),
   {| requests_sent := (requests_sent s ++ map request_for target_cities)%list;
      page := (page s ++ errors_of os)%list;
      cache := Some {| stored_at := now;
                       cached_value := pd_DataFrame (rows_of os);
                       cached_elements := errors_of os |} |}).

(** the scenarios of the specification: Tokyo alone in the table *)
Definition tokyo : string * Coords :=
  ("Tokyo", {| coords_lat := float_of_decimal 356895 4;
               coords_lon := float_of_decimal 1396917 4 |}).

(** 22.5 degrees at 15:00 on the first of June 2024 *)
Definition tokyo_warm : Row :=
  {| City := "Tokyo";
     lat := float_of_decimal 356895 4;
     lon := float_of_decimal 1396917 4;
     Temperature := PFloat (float_of_decimal 225 1);
     Time := "2024/06/01 15:00";
     color := [255; 100; 0; 200];
     elevation := PFloat (float_of_Z 112500) |}.

(** 3.2 degrees below zero *)
Definition tokyo_cold : Row :=
  {| City := "Tokyo";
     lat := float_of_decimal 356895 4;
     lon := float_of_decimal 1396917 4;
     Temperature := PFloat (float_of_decimal (-32) 1);
     Time := "2024/06/01 15:00";
     color := [0; 150; 255; 200];
     elevation := PFloat (float_of_Z (-16000)) |}.

(** exactly 20 degrees, the lower bound of the warmest colour *)
Definition tokyo_at_20 : Row :=
  {| City := "Tokyo";
     lat := float_of_decimal 356895 4;
     lon := float_of_decimal 1396917 4;
     Temperature := PFloat (float_of_Z 20);
     Time := "2024/06/01 15:00";
     color := [255; 100; 0; 200];
     elevation := PFloat (float_of_Z 100000) |}.

(** the first request gets one reading and the later ones another *)
Definition env_first (first later : value) (time : string) : Env :=
  {| http_get := fun k _ =>
       inr (answer (if Nat.eqb k 0 then first else later) time);
     fromisoformat := Datetime.fromisoformat |}.

(** the first two cities of the table *)
Definition two_cities : list (string * Coords) := firstn 2 target_cities.

(** Fukuoka as stored when it reads the int 12 and Saga reads 22.5 *)
Definition fukuoka_stored : Row :=
  {| City := "Fukuoka";
     lat := float_of_decimal 335904 4;
     lon := float_of_decimal 1304017 4;
     Temperature := PFloat (float_of_Z 12);
     Time := "2024/06/01 15:00";
     color := [255; 200; 0; 200];
     elevation := PFloat (float_of_Z 60000) |}.

(** Fukuoka as stored when it reads the int 2^53 + 1 and Saga 22.5 *)
Definition fukuoka_rounded : Row :=
  {| City := "Fukuoka";
     lat := float_of_decimal 335904 4;
     lon := float_of_decimal 1304017 4;
     Temperature := PFloat (float_of_Z 9007199254740992);
     Time := "2024/06/01 15:00";
     color := [255; 100; 0; 200];
     elevation := PInt 45035996273704965000 |}.

(** Fukuoka as stored when it reads the int 2^50 + 1 and Saga 22.5 *)
Definition fukuoka_high : Row :=
  {| City := "Fukuoka";
     lat := float_of_decimal 335904 4;
     lon := float_of_decimal 1304017 4;
     Temperature := PFloat (float_of_Z 1125899906842625);
     Time := "2024/06/01 15:00";
     color := [255; 100; 0; 200];
     elevation := PFloat (float_of_Z 5629499534213125120) |}.

(** Tokyo at 22.5 degrees with a timestamp of the year 999 *)
Definition tokyo_year_999 : Row :=
  {| City := "Tokyo";
     lat := float_of_decimal 356895 4;
     lon := float_of_decimal 1396917 4;
     Temperature := PFloat (float_of_decimal 225 1);
     Time := "999/01/01 00:00";
     color := [255; 100; 0; 200];
     elevation := PFloat (float_of_Z 112500) |}.

(** ** Further vocabulary *)

(** the sign bit of a binary64, when it has one *)
Definition float_sign (f : float) : option bool :=
  match f with
  | S754_zero s | S754_infinity s | S754_finite s _ _ => Some s
  | S754_nan => None
  end.

(** structural equality of two binary64 values *)
Definition float_same (f g : float) : bool :=
  match f, g with
  | S754_zero s, S754_zero s' => Bool.eqb s s'
  | S754_infinity s, S754_infinity s' => Bool.eqb s s'
  | S754_nan, S754_nan => true
  | S754_finite s m e, S754_finite s' m' e' =>
      Bool.eqb s s' && Pos.eqb m m' && Z.eqb e e'
  | _, _ => false
  end.

Definition bucket_rank (b : ColorBucket) : Z :=
  match b with low => 0 | mid => 1 | high => 2 end.

(** the bucket the specification gives to a number *)
Definition bucket_of_Q (q : Q) : ColorBucket :=
  if Qle_bool 20 q then high else if Qle_bool 10 q then mid else low.

(** an [int], a [bool] or a [float] *)
Definition is_number (v : value) : bool :=
  match v with
  | PBool _ | PInt _ | PFloat _ => true
  | _ => false
  end.

(** the service gives the same response to every request *)
Definition env_replying (response : Response) : Env :=
  {| http_get := fun _ _ => inr response;
     fromisoformat := Datetime.fromisoformat |}.

Definition not_found : Response :=
  {| status_code := 404;
     reason := "Not Found";
     response_url := BASE_URL;
     json_body := json_body (answer (PInt 12) "2024-06-01T15:00") |}.

(** a 200 answer whose body is the empty object *)
Definition empty_object : Response :=
  {| status_code := 200;
     reason := "OK";
     response_url := BASE_URL;
     json_body := inr (PDict []) |}.

Definition is_button (e : Element) : bool :=
  match e with Button _ => true | _ => false end.

(** nothing stored, or an entry that has reached its time to live *)
Definition expired (now : Z) (s : Session) : bool :=
  match cache s with
  | None => true
  | Some entry => negb (now - stored_at entry <? 600)
  end.

(** the chart the script draws for a table *)
Definition deck_of (df : DataFrame) : Deck :=
  {| layers := [column_layer df];
     initial_view_state := view_state;
     map_style := "mapbox://styles/mapbox/light-v10";
     tooltip_html :=
       "<b>{City}</b><br>気温: {Temperature}°C<br>時刻: {Time}" |}.

(** what the script draws before the listing: the title, then the error
    boxes of the batch *)
Definition page_head (errors : list Element) : list Element :=
  (Title "主要都市の現在気温 3Dビジュアライゼーション" :: errors
   ++ [Subheader "📊 都市別データ"])%list.

(** what the script draws from the listing to the button *)
Definition page_listing (rows : list Row) : list Element :=
  [ Table {| columns := ["City"; "Temperature"; "Time"]; records := rows |};
    Info "※ 1度あたり 5,000m の高さで表示しています。";
    Button "データを更新" ].

(** what the script draws after the button *)
Definition page_map (rows : list Row) : list Element :=
  [ Subheader "🌡️ 3D カラムマップ";
    PydeckChart (deck_of (pd_DataFrame rows)) ].

(** the entry a run of the batch at [now] leaves in the cache *)
Definition entry_of (env : Env) (now : Z) (s : Session) : CacheEntry :=
  let os := attempts env (List.length (requests_sent s)) target_cities in
  {| stored_at := now;
     cached_value := pd_DataFrame (rows_of os);
     cached_elements := errors_of os |}.

(** * Properties *)

(** ** Exceptions raised inside the [try] block *)

Ltac step_result H :=
  match type of H with
  | bind_result ?r _ = _ =>
      let E := fresh "E" in
      destruct r eqn:E; simpl in H; [ | inversion H; subst; clear H ]
  end.

Lemma raise_for_status_Exception (response : Response) (e : exn) :
  raise_for_status response = Raise e -> is_Exception e = true.
Proof.
  unfold raise_for_status.
  destruct (String.eqb _ ""); intros H; inversion H; reflexivity.
Qed.

Lemma json_Exception (response : Response) (e : exn) :
  json response = Raise e -> is_Exception e = true.
Proof.
  unfold json. destruct (json_body response); intros H; inversion H; reflexivity.
Qed.

Lemma getitem_Exception (v : value) (k : string) (e : exn) :
  getitem v k = Raise e -> is_Exception e = true.
Proof.
  destruct v; simpl; try (intros H; inversion H; reflexivity).
  destruct (dict_get d k); intros H; inversion H; reflexivity.
Qed.

Lemma fromisoformat_Exception (env : Env) (v : value) (e : exn) :
  datetime_fromisoformat env v = Raise e -> is_Exception e = true.
Proof.
  destruct v; simpl; try (intros H; inversion H; reflexivity).
  destruct (fromisoformat env s); intros H; inversion H; reflexivity.
Qed.

Lemma ge_Exception (v : value) (n : Z) (e : exn) :
  ge v n = Raise e -> is_Exception e = true.
Proof.
  destruct v; simpl; intros H; inversion H; reflexivity.
Qed.

Lemma mul_Exception (v : value) (n : Z) (e : exn) :
  mul v n = Raise e -> is_Exception e = true.
Proof.
  destruct v; simpl; intros H; inversion H; reflexivity.
Qed.

Lemma color_of_Exception (temp : value) (e : exn) :
  color_of temp = Raise e -> is_Exception e = true.
Proof.
  unfold color_of. intros H.
  step_result H; [ | eauto using ge_Exception ].
  destruct a; [ discriminate | ].
  step_result H; [ | eauto using ge_Exception ].
  destruct a; discriminate.
Qed.

Create HintDb raised.
#[local] Hint Resolve raise_for_status_Exception json_Exception
  getitem_Exception fromisoformat_Exception color_of_Exception
  mul_Exception : raised.

(** Whatever the [try] block raises after the request derives from
    [Exception]. *)
Lemma reading_Exception (env : Env) (city : string) (coords : Coords)
    (response : Response) (e : exn) :
  reading env city coords response = Raise e -> is_Exception e = true.
Proof.
  unfold reading. intros H.
  repeat (step_result H; [ | eauto with raised ]).
  discriminate.
Qed.

Lemma attempt_Exception (env : Env) (k : nat) (item : string * Coords)
    (e : exn) :
  attempt env k item = Raise e -> is_Exception e = true.
Proof.
  unfold attempt. destruct (http_get env k (request_for item)).
  - intros H; inversion H; reflexivity.
  - apply reading_Exception.
Qed.

(** What a row that was appended is made of. *)
Lemma reading_Ok (env : Env) (city : string) (coords : Coords)
    (response : Response) (r : Row) :
  reading env city coords response = Ok r ->
  exists data current time dt temp,
    raise_for_status response = Ok tt
    /\ json_body response = inr data
    /\ getitem data "current" = Ok current
    /\ getitem current "time" = Ok time
    /\ datetime_fromisoformat env time = Ok dt
    /\ getitem current "temperature_2m" = Ok temp
    /\ color_of temp = Ok (color r)
    /\ mul temp 5000 = Ok (elevation r)
    /\ City r = city
    /\ lat r = coords_lat coords
    /\ lon r = coords_lon coords
    /\ Temperature r = temp
    /\ Time r = Datetime.strftime dt "%Y/%m/%d %H:%M".
Proof.
  unfold reading. intros H.
  step_result H. destruct a.
  step_result H. rename a into data.
  step_result H. rename a into current.
  step_result H. rename a into time.
  step_result H. rename a into dt.
  step_result H. rename a into temp.
  step_result H. step_result H.
  inversion H; subst; clear H. simpl.
  exists data, current, time, dt, temp.
  unfold json in E0. destruct (json_body response); [ discriminate | ].
  inversion E0; subst.
  repeat split; assumption.
Qed.

(** ** The loop *)

Lemma rows_of_app (os os' : list (string * result Row)) :
  rows_of (os ++ os') = (rows_of os ++ rows_of os')%list.
Proof.
  induction os as [ | [city [r | e]] os IH ]; simpl; congruence.
Qed.

(** One turn never raises: it appends the row or draws the error, and
    logs the request it sent. *)
Lemma visit_spec (env : Env) (weather_info : list Row)
    (item : string * Coords) (s : Session) :
  let o := (fst item, attempt env (List.length (requests_sent s)) item) in
  visit env weather_info item s =
    (Ok (weather_info ++ rows_of [o])%list,
     {| requests_sent := (requests_sent s ++ [request_for item])%list;
        page := (page s ++ errors_of [o])%list;
        cache := cache s |}).
Proof.
  destruct item as [city coords]. simpl.
  unfold visit, try_except_Exception, bind, requests_get, lift, attempt,
    request_for. simpl.
  destruct (http_get env _ _) as [msg | response] eqn:Hget; simpl.
  - rewrite !app_nil_r. reflexivity.
  - destruct (reading env city coords response) as [r | e] eqn:Hread; simpl.
    + rewrite app_nil_r. reflexivity.
    + rewrite (reading_Exception _ _ _ _ _ Hread). simpl.
      rewrite app_nil_r. reflexivity.
Qed.

Lemma for_each_spec (env : Env) (items : list (string * Coords)) :
  forall (weather_info : list Row) (s : Session),
    let os := attempts env (List.length (requests_sent s)) items in
    for_each env items weather_info s =
      (Ok (weather_info ++ rows_of os)%list,
       {| requests_sent := (requests_sent s ++ map request_for items)%list;
          page := (page s ++ errors_of os)%list;
          cache := cache s |}).
Proof.
  induction items as [ | item rest IH ]; intros weather_info s; simpl.
  - unfold ret. rewrite !app_nil_r. destruct s; reflexivity.
  - unfold bind. rewrite visit_spec. rewrite IH. simpl.
    rewrite length_app, Nat.add_comm. simpl.
    rewrite <- !app_assoc. simpl.
    destruct (attempt env _ item); reflexivity.
Qed.

(** The batch always returns: with the rows of the cities that succeeded,
    after one request per city and one error box per failure. *)
Lemma fetch_weather_data_over_spec (items : list (string * Coords))
    (env : Env) (s : Session) :
  let os := attempts env (List.length (requests_sent s)) items in
  fetch_weather_data_over items env s =
    (Ok (pd_DataFrame (rows_of os)),
     {| requests_sent := (requests_sent s ++ map request_for items)%list;
        page := (page s ++ errors_of os)%list;
        cache := cache s |}).
Proof.
  unfold fetch_weather_data_over, bind. rewrite for_each_spec. reflexivity.
Qed.

Lemma table_of_batch (items : list (string * Coords)) (env : Env)
    (s : Session) :
  table_of (fetch_weather_data_over items env s) =
    rows_of (attempts env (List.length (requests_sent s)) items).
Proof.
  rewrite fetch_weather_data_over_spec. reflexivity.
Qed.

Lemma attempts_cities (env : Env) (items : list (string * Coords)) :
  forall k, map fst (attempts env k items) = map fst items.
Proof.
  induction items as [ | item rest IH ]; intros k; simpl; [ | rewrite IH ];
    reflexivity.
Qed.

Lemma attempts_length (env : Env) (items : list (string * Coords)) :
  forall k, List.length (attempts env k items) = List.length items.
Proof.
  induction items as [ | item rest IH ]; intros k; simpl; [ | rewrite IH ];
    reflexivity.
Qed.

Lemma attempts_nth (env : Env) (items : list (string * Coords)) :
  forall k i item,
    nth_error items i = Some item ->
    nth_error (attempts env k items) i
    = Some (fst item, attempt env (k + i) item).
Proof.
  induction items as [ | x rest IH ]; intros k [ | i ] item H; simpl in *;
    try discriminate.
  - inversion H; subst. rewrite Nat.add_0_r. reflexivity.
  - rewrite (IH (S k) i item H). rewrite Nat.add_succ_r. reflexivity.
Qed.

(** every outcome listed is the outcome of some city of the table *)
Lemma attempts_In (env : Env) (items : list (string * Coords)) :
  forall k o,
    In o (attempts env k items) ->
    exists i item,
      nth_error items i = Some item /\ o = (fst item, attempt env (k + i) item).
Proof.
  induction items as [ | x rest IH ]; intros k o H; simpl in H.
  - contradiction.
  - destruct H as [H | H].
    + exists 0%nat, x. rewrite Nat.add_0_r. split; [ reflexivity | congruence ].
    + destruct (IH _ _ H) as (i & item & Hi & Ho).
      exists (S i), item. rewrite Nat.add_succ_r. split; assumption.
Qed.

Lemma rows_of_In (os : list (string * result Row)) (r : Row) :
  In r (rows_of os) <-> exists city, In (city, Ok r) os.
Proof.
  induction os as [ | [city [r' | e]] os IH ]; simpl.
  - split; [ contradiction | intros [_ []] ].
  - rewrite IH. split.
    + intros [H | [c H]]; [ subst; eauto | eauto ].
    + intros [c [H | H]]; [ inversion H; auto | eauto ].
  - rewrite IH. split.
    + intros [c H]; eauto.
    + intros [c [H | H]]; [ discriminate | eauto ].
Qed.

(** A row of the table comes from the response to the request of one
    city of the input table. *)
Lemma row_origin (items : list (string * Coords)) (env : Env) (s : Session)
    (r : Row) :
  In r (table_of (fetch_weather_data_over items env s)) ->
  exists i city coords response,
    nth_error items i = Some (city, coords)
    /\ http_get env (List.length (requests_sent s) + i)
         (request_for (city, coords)) = inr response
    /\ reading env city coords response = Ok r.
Proof.
  rewrite table_of_batch, rows_of_In. intros [c H].
  apply attempts_In in H. destruct H as (i & [city coords] & Hi & Ho).
  inversion Ho as [[Hc Ha]]. symmetry in Ha.
  unfold attempt in Ha. simpl in Ha.
  destruct (http_get env _ _) as [msg | response] eqn:Hget; [ discriminate | ].
  exists i, city, coords, response. auto.
Qed.

Lemma rows_errors_length (os : list (string * result Row)) :
  (List.length (rows_of os) + List.length (errors_of os))%nat = List.length os.
Proof.
  induction os as [ | [city [r | e]] os IH ]; simpl; lia.
Qed.

Lemma errors_of_length (os : list (string * result Row)) :
  List.length (errors_of os) = List.length (filter failed os).
Proof.
  induction os as [ | [city [r | e]] os IH ]; simpl; auto.
Qed.

Lemma rows_of_length (os : list (string * result Row)) :
  List.length (rows_of os) = List.length (filter succeeded os).
Proof.
  induction os as [ | [city [r | e]] os IH ]; simpl; auto.
Qed.

Lemma rows_of_cities (os : list (string * result Row)) :
  (forall city r, In (city, Ok r) os -> City r = city) ->
  map City (rows_of os) = map fst (filter succeeded os).
Proof.
  induction os as [ | [city [r | e]] os IH ]; intros H; simpl.
  - reflexivity.
  - unfold succeeded at 1. simpl. rewrite IH.
    + rewrite (H city r); [ reflexivity | left; reflexivity ].
    + intros c r' Hin. apply H. right. assumption.
  - unfold succeeded at 1. simpl. apply IH.
    intros c r' Hin. apply H. right. assumption.
Qed.

Lemma attempt_City (env : Env) (k : nat) (item : string * Coords) (r : Row) :
  attempt env k item = Ok r -> City r = fst item.
Proof.
  unfold attempt. destruct (http_get env k _); [ discriminate | ].
  intros H. apply reading_Ok in H.
  destruct H as (? & ? & ? & ? & ? & H). tauto.
Qed.

Lemma rows_of_nth (os : list (string * result Row)) :
  forall j r,
    nth_error (rows_of os) j = Some r ->
    exists j' city, nth_error os j' = Some (city, Ok r).
Proof.
  intros j r H. apply nth_error_In in H. apply rows_of_In in H.
  destruct H as [city H]. apply In_nth_error in H. destruct H as [j' H].
  eauto.
Qed.

(** rows keep the order of the outcomes they come from *)
Lemma rows_of_order (os : list (string * result Row)) :
  forall i j ri rj,
    (i < j)%nat ->
    nth_error (rows_of os) i = Some ri ->
    nth_error (rows_of os) j = Some rj ->
    exists i' j' ci cj,
      (i' < j')%nat
      /\ nth_error os i' = Some (ci, Ok ri)
      /\ nth_error os j' = Some (cj, Ok rj).
Proof.
  induction os as [ | [city [r | e]] os IH ]; intros i j ri rj Hlt Hi Hj;
    simpl in *.
  - destruct i; discriminate.
  - destruct j as [ | j ]; [ lia | ]. simpl in Hj.
    destruct i as [ | i ]; simpl in Hi.
    + inversion Hi; subst.
      destruct (rows_of_nth _ _ _ Hj) as (j' & cj & Hj').
      exists 0%nat, (S j'), city, cj. repeat split; [ lia | assumption ].
    + destruct (IH i j ri rj) as (i' & j' & ci & cj & H1 & H2 & H3);
        [ lia | assumption | assumption | ].
      exists (S i'), (S j'), ci, cj. repeat split; [ lia | | ]; assumption.
  - destruct (IH i j ri rj) as (i' & j' & ci & cj & H1 & H2 & H3);
      [ lia | assumption | assumption | ].
    exists (S i'), (S j'), ci, cj. repeat split; [ lia | | ]; assumption.
Qed.

Lemma errors_of_In (os : list (string * result Row)) (city : string)
    (e : exn) :
  In (city, Raise e) os ->
  In (Error ("Error fetching " ++ city ++ ": " ++ exn_str e)) (errors_of os).
Proof.
  induction os as [ | [c [r | e']] os IH ]; simpl; intros H.
  - contradiction.
  - destruct H as [H | H]; [ discriminate | auto ].
  - destruct H as [H | H]; [ inversion H; left; reflexivity | right; auto ].
Qed.

(** ** The batch: isolation of failures, order, requests *)

(** C2: whatever the table of cities and whichever requests or parses
    fail, the batch runs to its end and returns a table, no exception
    leaves it; the table holds the rows of the attempts that succeeded
    and nothing for the others; a city whose attempt succeeds has its
    row in the table whatever happened to the others; a city whose
    attempt fails has an error box with its name on the page; the table
    has as many rows as there are cities minus the failures. *)
Theorem failures_are_isolated (items : list (string * Coords)) (env : Env)
    (s : Session) :
  let k := List.length (requests_sent s) in
  let os := attempts env k items in
  exists df s',
    fetch_weather_data_over items env s = (Ok df, s')
    /\ records df = rows_of os
    /\ (forall i item r,
          nth_error items i = Some item ->
          attempt env (k + i) item = Ok r -> In r (records df))
    /\ (forall i item e,
          nth_error items i = Some item ->
          attempt env (k + i) item = Raise e ->
          In (Error ("Error fetching " ++ fst item ++ ": " ++ exn_str e))
            (page s'))
    /\ page s' = (page s ++ errors_of os)%list
    /\ List.length (errors_of os) = List.length (filter failed os)
    /\ (len df + List.length (filter failed os))%nat = List.length items.
Proof.
  intros k os. eexists. eexists.
  split; [ apply fetch_weather_data_over_spec | ].
  fold k. fold os. simpl.
  split; [ reflexivity | ].
  split; [ | split; [ | split; [ reflexivity | split ] ] ].
  - intros i item r Hi Ha.
    apply rows_of_In. exists (fst item).
    apply (nth_error_In _ i). unfold os.
    rewrite (attempts_nth _ _ _ _ _ Hi). rewrite Ha. reflexivity.
  - intros i item e Hi Ha.
    apply in_or_app. right. apply errors_of_In.
    apply (nth_error_In _ i). unfold os.
    rewrite (attempts_nth _ _ _ _ _ Hi). rewrite Ha. reflexivity.
  - apply errors_of_length.
  - unfold len. simpl. rewrite <- errors_of_length.
    rewrite rows_errors_length. apply attempts_length.
Qed.

(** C7: the table holds exactly one row per city whose attempt
    succeeded, and the rows follow the order of the input table: the
    cities of the rows are the cities of the input with the failures
    removed, and two rows are in the order of the entries they come
    from. *)
Theorem rows_follow_input_order (items : list (string * Coords)) (env : Env)
    (s : Session) :
  let k := List.length (requests_sent s) in
  let os := attempts env k items in
  let table := table_of (fetch_weather_data_over items env s) in
  map fst os = map fst items
  /\ table = rows_of os
  /\ map City table = map fst (filter succeeded os)
  /\ List.length table = List.length (filter succeeded os)
  /\ (forall i j ri rj,
        (i < j)%nat ->
        nth_error table i = Some ri -> nth_error table j = Some rj ->
        exists i' j' ci cj,
          (i' < j')%nat
          /\ nth_error items i' = Some ci
          /\ nth_error items j' = Some cj
          /\ attempt env (k + i') ci = Ok ri
          /\ attempt env (k + j') cj = Ok rj).
Proof.
  intros k os table.
  assert (Ht : table = rows_of os) by apply table_of_batch.
  split; [ apply attempts_cities | ].
  split; [ exact Ht | ].
  split; [ | split ].
  - rewrite Ht. apply rows_of_cities.
    intros city r Hin. apply attempts_In in Hin.
    destruct Hin as (i & item & Hi & Ho). inversion Ho; subst.
    symmetry in H1. apply (attempt_City _ _ _ _ H1).
  - rewrite Ht. apply rows_of_length.
  - rewrite Ht. intros i j ri rj Hlt Hi Hj.
    destruct (rows_of_order os i j ri rj Hlt Hi Hj)
      as (i' & j' & ci & cj & Hlt' & Hi' & Hj').
    assert (Hitem : forall n c r,
               nth_error os n = Some (c, Ok r) ->
               exists item, nth_error items n = Some item
                            /\ attempt env (k + n) item = Ok r).
    { intros n c r Hn.
      destruct (nth_error items n) as [item | ] eqn:Hitems.
      - exists item. split; [ reflexivity | ].
        unfold os in Hn. rewrite (attempts_nth _ _ _ _ _ Hitems) in Hn.
        inversion Hn. reflexivity.
      - apply nth_error_None in Hitems.
        assert (Some (c, Ok r) = None) as Habs; [ | discriminate ].
        rewrite <- Hn. apply nth_error_None. unfold os.
        rewrite attempts_length. assumption. }
    destruct (Hitem _ _ _ Hi') as (itemi & Hii & Hai).
    destruct (Hitem _ _ _ Hj') as (itemj & Hjj & Haj).
    exists i', j', itemi, itemj. auto.
Qed.

(** C8: the batch sends one GET request per city, in the order of the
    table, to the forecast endpoint, and the query of each is exactly
    latitude and longitude of that city's entry, current=temperature_2m
    and timezone=Asia/Tokyo; so does the decorated function over the
    nine cities when nothing is cached. *)
Theorem request_parameters (items : list (string * Coords)) (env : Env)
    (s : Session) (now : Z) :
  let query (item : string * Coords) :=
    {| url := "https://api.open-meteo.com/v1/forecast";
       params := [ ("latitude", PFloat (coords_lat (snd item)));
                   ("longitude", PFloat (coords_lon (snd item)));
                   ("current", PStr "temperature_2m");
                   ("timezone", PStr "Asia/Tokyo") ] |} in
  requests_sent (snd (fetch_weather_data_over items env s))
  = (requests_sent s ++ map query items)%list
  /\ requests_sent (snd (fetch_weather_data env now fresh))
     = map query target_cities.
Proof.
  intros query. split.
  - rewrite fetch_weather_data_over_spec. reflexivity.
  - unfold fetch_weather_data, st_cache_data. simpl.
    rewrite fetch_weather_data_over_spec. reflexivity.
Qed.

(** ** The fields of a row *)

Lemma color_of_cases (temp : value) (c : list Z) :
  color_of temp = Ok c ->
  (ge temp 20 = Ok true /\ c = [255; 100; 0; 200])
  \/ (ge temp 20 = Ok false /\ ge temp 10 = Ok true
      /\ c = [255; 200; 0; 200])
  \/ (ge temp 20 = Ok false /\ ge temp 10 = Ok false
      /\ c = [0; 150; 255; 200]).
Proof.
  unfold color_of. intros H.
  step_result H. destruct a.
  - inversion H. auto.
  - step_result H. destruct a; inversion H; auto.
Qed.

Lemma row_color (items : list (string * Coords)) (env : Env) (s : Session)
    (r : Row) :
  In r (table_of (fetch_weather_data_over items env s)) ->
  color_of (Temperature r) = Ok (color r).
Proof.
  intros Hin. apply row_origin in Hin.
  destruct Hin as (i & city & coords & response & _ & _ & Hread).
  apply reading_Ok in Hread.
  destruct Hread as (body & current & time & dt & temp & H).
  destruct H as (_ & _ & _ & _ & _ & _ & Hc & _ & _ & _ & _ & HT & _).
  rewrite HT. exact Hc.
Qed.

(** C9: the colour of a row is one of three fixed RGBA values, chosen by
    the two comparisons of its temperature: [255, 100, 0, 200] when it is
    at least 20, [255, 200, 0, 200] when it is not but is at least 10,
    [0, 150, 255, 200] otherwise; the fourth component is 200 in every
    row. *)
Theorem color_is_one_of_three (items : list (string * Coords)) (env : Env)
    (s : Session) (r : Row) :
  In r (table_of (fetch_weather_data_over items env s)) ->
  ((ge (Temperature r) 20 = Ok true /\ color r = [255; 100; 0; 200])
   \/ (ge (Temperature r) 20 = Ok false /\ ge (Temperature r) 10 = Ok true
       /\ color r = [255; 200; 0; 200])
   \/ (ge (Temperature r) 20 = Ok false /\ ge (Temperature r) 10 = Ok false
       /\ color r = [0; 150; 255; 200]))
  /\ (exists b, color r = bucket_color b)
  /\ nth 3 (color r) 0 = 200
  /\ List.length (color r) = 4%nat.
Proof.
  intros Hin. apply row_color in Hin. apply color_of_cases in Hin.
  split; [ exact Hin | ].
  destruct Hin as [[_ H] | [(_ & _ & H) | (_ & _ & H)]]; rewrite H.
  - split; [ exists high; reflexivity | split; reflexivity ].
  - split; [ exists mid; reflexivity | split; reflexivity ].
  - split; [ exists low; reflexivity | split; reflexivity ].
Qed.

Lemma color_is_one_of_three_witness :
  In tokyo_cold
    (table_of (fetch_weather_data_over [tokyo]
                 (env_steady (PFloat (float_of_decimal (-32) 1))
                    "2024-06-01T15:00") fresh))
  /\ ((ge (Temperature tokyo_cold) 20 = Ok true
       /\ color tokyo_cold = [255; 100; 0; 200])
      \/ (ge (Temperature tokyo_cold) 20 = Ok false
          /\ ge (Temperature tokyo_cold) 10 = Ok true
          /\ color tokyo_cold = [255; 200; 0; 200])
      \/ (ge (Temperature tokyo_cold) 20 = Ok false
          /\ ge (Temperature tokyo_cold) 10 = Ok false
          /\ color tokyo_cold = [0; 150; 255; 200]))
     /\ (exists b, color tokyo_cold = bucket_color b)
     /\ nth 3 (color tokyo_cold) 0 = 200
     /\ List.length (color tokyo_cold) = 4%nat.
Proof.
  assert (H : In tokyo_cold
                (table_of (fetch_weather_data_over [tokyo]
                             (env_steady (PFloat (float_of_decimal (-32) 1))
                                "2024-06-01T15:00") fresh)))
    by (vm_compute; left; reflexivity).
  split; [ exact H | exact (color_is_one_of_three _ _ _ _ H) ].
Defined.

Lemma row_elevation (items : list (string * Coords)) (env : Env) (s : Session)
    (r : Row) :
  In r (table_of (fetch_weather_data_over items env s)) ->
  mul (Temperature r) 5000 = Ok (elevation r).
Proof.
  intros Hin. apply row_origin in Hin.
  destruct Hin as (i & city & coords & response & _ & _ & Hread).
  apply reading_Ok in Hread.
  destruct Hread as (body & current & time & dt & temp & H).
  destruct H as (_ & _ & _ & _ & _ & _ & _ & He & _ & _ & _ & HT & _).
  rewrite HT. exact He.
Qed.

(** a comparison that succeeded was made on a number *)
Lemma ge_Ok_number (v : value) (n : Z) (b : bool) :
  ge v n = Ok b ->
  (exists z, v = PInt z) \/ (exists f, v = PFloat f) \/ (exists c, v = PBool c).
Proof.
  destruct v; simpl; intros H; try discriminate; eauto.
Qed.

(** ** Comparing a binary64 with 20 and 10 *)

Lemma digits2_pos_bounds (m : positive) :
  2 ^ (Zpos (digits2_pos m) - 1) <= Zpos m < 2 ^ Zpos (digits2_pos m).
Proof.
  induction m as [ m IH | m IH | ]; simpl digits2_pos.
  - rewrite Pos2Z.inj_succ.
    replace (Z.succ (Zpos (digits2_pos m)) - 1) with (Z.succ (Zpos (digits2_pos m) - 1)) by lia.
    rewrite !Z.pow_succ_r by lia. lia.
  - rewrite Pos2Z.inj_succ.
    replace (Z.succ (Zpos (digits2_pos m)) - 1) with (Z.succ (Zpos (digits2_pos m) - 1)) by lia.
    rewrite !Z.pow_succ_r by lia. lia.
  - simpl. lia.
Qed.

Lemma bounded_mantissa (m : positive) (e : Z) :
  bounded prec emax m e = true ->
  Zpos m < 2 ^ 53 /\ -1074 <= e /\ (-1074 < e -> 2 ^ 52 <= Zpos m).
Proof.
  unfold bounded, canonical_mantissa, fexp, emin, prec, emax.
  intros H. apply andb_prop in H. destruct H as [H _].
  apply Z.eqb_eq in H.
  pose proof (digits2_pos_bounds m) as [Hlo Hhi].
  set (d := Zpos (digits2_pos m)) in *.
  assert (Hd : d <= 53) by lia.
  split; [ | split ].
  - apply Z.lt_le_trans with (1 := Hhi). apply Z.pow_le_mono_r; lia.
  - lia.
  - intros He. assert (d = 53) by lia. subst d. rewrite H0 in Hlo. exact Hlo.
Qed.

Lemma leb_threshold (n : Z) (mT pT : positive) (s : bool) (m : positive)
    (e : Z) (q : Q) :
  0 < n -> Zpos mT = n * 2 ^ Zpos pT ->
  2 ^ 52 <= Zpos mT < 2 ^ 53 -> Zpos pT < 1074 ->
  bounded prec emax m e = true ->
  Q_of_float (S754_finite s m e) = Some q ->
  SFleb (S754_finite false mT (Zneg pT)) (S754_finite s m e) = true
  <-> (inject_Z n <= q)%Q.
Proof.
  intros Hn HmT HT HpT Hb Hq.
  apply bounded_mantissa in Hb. destruct Hb as (Hhi & Hemin & Hlo).
  simpl in Hq. inversion Hq as [Hq']. clear Hq Hq'.
  assert (Hpow : forall a b, 0 <= a <= b -> 2 ^ a <= 2 ^ b)
    by (intros; apply Z.pow_le_mono_r; lia).
  assert (Hpos : forall a, 0 <= a -> 0 < 2 ^ a)
    by (intros; apply Z.pow_pos_nonneg; lia).
  assert (HpT2 : 2 ^ 1 <= 2 ^ Zpos pT) by (apply Hpow; lia).
  change (2 ^ 1) with 2 in HpT2.
  destruct s.
  - (* negative reading *)
    unfold SFleb, SFcompare. split; [ discriminate | ].
    intros H. exfalso.
    destruct e as [ | p | p ]; unfold Qle in H; cbn [Qnum Qden inject_Z] in H.
    + change (2 ^ 0) with 1 in H. lia.
    + pose proof (Hpos (Zpos p) ltac:(lia)). 
      nia.
    + rewrite Pos2Z.inj_pow in H. pose proof (Hpos (Zpos p) ltac:(lia)). nia.
  - unfold SFleb, SFcompare.
    destruct (Z.compare_spec (Zneg pT) e) as [Heq | Hlt | Hgt].
    + subst e. rewrite Pos.compare_cont_spec. simpl.
      unfold Qle. cbn [Qnum Qden inject_Z]. rewrite Pos2Z.inj_pow. rewrite <- HmT.
      destruct (Pos.compare_spec mT m) as [H | H | H]; simpl;
        split; intros H'; try reflexivity; try discriminate; try lia.
    + split; [ intros _ | reflexivity ].
      specialize (Hlo ltac:(lia)).
      destruct e as [ | p | p ]; unfold Qle; cbn [Qnum Qden inject_Z].
      * change (2 ^ 0) with 1. nia.
      * pose proof (Hpos (Zpos p) ltac:(lia)). nia.
      * rewrite Pos2Z.inj_pow.
        assert (2 * 2 ^ Zpos p <= 2 ^ Zpos pT).
        { rewrite <- Z.pow_succ_r by lia. apply Hpow. lia. }
        nia.
    + split; [ discriminate | ].
      intros H. exfalso.
      destruct e as [ | p | p ]; try lia.
      unfold Qle in H. cbn [Qnum Qden inject_Z] in H. rewrite Pos2Z.inj_pow in H.
      assert (2 * 2 ^ Zpos pT <= 2 ^ Zpos p).
      { rewrite <- Z.pow_succ_r by lia. apply Hpow. lia. }
      nia.
Qed.

Lemma ge_Q (n : Z) (mT pT : positive) (v : value) (q : Q) (b : bool) :
  0 < n -> float_of_Z n = S754_finite false mT (Zneg pT) ->
  Zpos mT = n * 2 ^ Zpos pT ->
  2 ^ 52 <= Zpos mT < 2 ^ 53 -> Zpos pT < 1074 ->
  well_formed v = true ->
  temperature_Q v = Some q ->
  ge v n = Ok b ->
  b = true <-> (inject_Z n <= q)%Q.
Proof.
  intros Hn HT HmT Hbounds HpT Hwf Hq Hge.
  destruct v as [ | c | z | f | | | ]; simpl in Hq, Hge; try discriminate.
  - inversion Hq; subst. inversion Hge; subst.
    unfold Qle. cbn [Qnum Qden inject_Z]. rewrite Z.leb_le. lia.
  - inversion Hq; subst. inversion Hge; subst.
    unfold Qle. cbn [Qnum Qden inject_Z]. rewrite Z.leb_le. lia.
  - rewrite HT in Hge. inversion Hge as [Hb]. clear Hge.
    destruct f as [ sz | si | | s m e ]; try discriminate.
    + inversion Hq; subst. unfold SFleb, SFcompare.
      unfold Qle. cbn [Qnum Qden inject_Z]. split; [ discriminate | lia ].
    + simpl in Hwf. apply (leb_threshold n mT pT s m e q); assumption.
Qed.

Lemma ge_20_Q (v : value) (q : Q) (b : bool) :
  well_formed v = true -> temperature_Q v = Some q -> ge v 20 = Ok b ->
  b = true <-> (20 <= q)%Q.
Proof.
  apply (ge_Q 20 5629499534213120 48); try reflexivity; try lia.
Qed.

Lemma ge_10_Q (v : value) (q : Q) (b : bool) :
  well_formed v = true -> temperature_Q v = Some q -> ge v 10 = Ok b ->
  b = true <-> (10 <= q)%Q.
Proof.
  apply (ge_Q 10 5629499534213120 49); try reflexivity; try lia.
Qed.

Lemma Q_order_cases (q : Q) :
  ((20 <= q)%Q -> (10 <= q)%Q) /\ ((q < 10)%Q -> ~ (20 <= q)%Q).
Proof.
  split.
  - intros H. apply Qle_trans with (y := 20%Q); [ | exact H ].
    unfold Qle; simpl; lia.
  - intros H H'. apply (Qlt_not_le _ _ H).
    apply Qle_trans with (y := 20%Q); [ | exact H' ].
    unfold Qle; simpl; lia.
Qed.

(** C1: the colour of a row is a function of its temperature alone and
    is always one of the three buckets.  Reading the temperature as the
    number it stands for, at least 20 gives the high bucket, at least 10
    and below 20 the mid bucket, below 10 the low bucket; the bounds 20
    and 10 themselves, as floats or as integers, fall in the higher
    bucket.  An infinite reading is high or low by its sign. *)
Theorem color_bucket_by_temperature (items : list (string * Coords))
    (env : Env) (s : Session) (r : Row) :
  In r (table_of (fetch_weather_data_over items env s)) ->
  well_formed (Temperature r) = true ->
  color_of (Temperature r) = Ok (color r)
  /\ (exists b, color r = bucket_color b)
  /\ (forall q, temperature_Q (Temperature r) = Some q ->
        ((20 <= q)%Q -> color r = bucket_color high)
        /\ ((10 <= q)%Q /\ (q < 20)%Q -> color r = bucket_color mid)
        /\ ((q < 10)%Q -> color r = bucket_color low))
  /\ (Temperature r = PFloat (S754_infinity false) ->
      color r = bucket_color high)
  /\ (Temperature r = PFloat (S754_infinity true) ->
      color r = bucket_color low)
  /\ (Temperature r = PFloat (float_of_Z 20) \/ Temperature r = PInt 20 ->
      color r = bucket_color high)
  /\ (Temperature r = PFloat (float_of_Z 10) \/ Temperature r = PInt 10 ->
      color r = bucket_color mid).
Proof.
  intros Hin Hwf. pose proof (row_color _ _ _ _ Hin) as Hc.
  split; [ exact Hc | ].
  split.
  { destruct (color_of_cases _ _ Hc) as [[_ H] | [(_ & _ & H) | (_ & _ & H)]];
      [ exists high | exists mid | exists low ]; exact H. }
  split.
  { intros q Hq. destruct (Q_order_cases q) as [H2010 Hlt10].
    destruct (color_of_cases _ _ Hc)
      as [[H20 H] | [(H20 & H10 & H) | (H20 & H10 & H)]]; rewrite H;
      pose proof (ge_20_Q _ _ _ Hwf Hq H20) as I20.
    - split; [ reflexivity | split ].
      + intros [_ Hlt]. exfalso. apply (Qlt_not_le _ _ Hlt). tauto.
      + intros Hlt. exfalso. apply (Hlt10 Hlt). tauto.
    - pose proof (ge_10_Q _ _ _ Hwf Hq H10) as I10.
      split; [ | split ].
      + intros H'. apply I20 in H'. discriminate.
      + reflexivity.
      + intros Hlt. exfalso. apply (Qlt_not_le _ _ Hlt). tauto.
    - pose proof (ge_10_Q _ _ _ Hwf Hq H10) as I10.
      split; [ | split ].
      + intros H'. apply I20 in H'. discriminate.
      + intros [H' _]. apply I10 in H'. discriminate.
      + reflexivity. }
  repeat split; intros H; try destruct H as [H | H]; rewrite H in Hc;
    match type of Hc with
    | ?l = _ => let v := eval vm_compute in l in change l with v in Hc
    end; inversion Hc; reflexivity.
Qed.

Lemma color_bucket_by_temperature_witness :
  In tokyo_at_20
    (table_of (fetch_weather_data_over [tokyo]
                 (env_steady (PFloat (float_of_Z 20)) "2024-06-01T15:00")
                 fresh))
  /\ well_formed (Temperature tokyo_at_20) = true
  /\ color tokyo_at_20 = bucket_color high.
Proof.
  assert (H : In tokyo_at_20
                (table_of (fetch_weather_data_over [tokyo]
                             (env_steady (PFloat (float_of_Z 20))
                                "2024-06-01T15:00") fresh)))
    by (vm_compute; left; reflexivity).
  assert (Hwf : well_formed (Temperature tokyo_at_20) = true)
    by (vm_compute; reflexivity).
  split; [ exact H | split; [ exact Hwf | ] ].
  destruct (color_bucket_by_temperature _ _ _ _ H Hwf) as (_ & _ & Hq & _).
  eapply Hq; [ vm_compute; reflexivity | unfold Qle; simpl; lia ].
Defined.

(** ** The table as the frame holds it *)

Lemma iter_xO_value (k m : positive) :
  Zpos (Pos.iter xO m k) = Zpos m * 2 ^ Zpos k.
Proof.
  induction k as [ | k IH ] using Pos.peano_ind.
  - simpl. lia.
  - rewrite Pos.iter_succ, Pos2Z.inj_succ, Z.pow_succ_r by lia.
    rewrite Pos2Z.inj_xO, IH. lia.
Qed.

Lemma iter_xO_digits (k m : positive) :
  Zpos (digits2_pos (Pos.iter xO m k)) = Zpos (digits2_pos m) + Zpos k.
Proof.
  induction k as [ | k IH ] using Pos.peano_ind.
  - simpl. lia.
  - rewrite Pos.iter_succ. simpl digits2_pos.
    rewrite Pos2Z.inj_succ, IH. lia.
Qed.

(** a mantissa of 53 bits with an exponent in range is kept as it is *)
Lemma binary_round_aux_kept (s : bool) (m : positive) (e : Z) :
  Zpos (digits2_pos m) = 53 -> -1074 <= e <= 971 ->
  binary_round_aux prec emax s (Zpos m) e loc_Exact = S754_finite s m e.
Proof.
  intros Hd He.
  assert (Hshr : shr_fexp prec emax (Zpos m) e loc_Exact
                 = ({| shr_m := Zpos m; shr_r := false; shr_s := false |}, e)).
  { unfold shr_fexp, fexp, emin, prec, emax. simpl Zdigits2. rewrite Hd.
    replace (Z.max (53 + e - 53) (3 - 1024 - 53) - e) with 0 by lia.
    reflexivity. }
  unfold binary_round_aux. rewrite Hshr. simpl.
  rewrite Hshr. simpl.
  replace (e <=? 971) with true by (symmetry; apply Z.leb_le; lia).
  reflexivity.
Qed.

Lemma float_of_positive (m : positive) (s : bool) :
  Zpos m < 2 ^ 53 ->
  exists m' e,
    binary_round prec emax s m 0 = S754_finite s m' e
    /\ e <= 0 /\ Zpos m' = Zpos m * 2 ^ (- e).
Proof.
  intros Hm.
  pose proof (digits2_pos_bounds m) as [Hlo Hhi].
  set (d := Zpos (digits2_pos m)) in *.
  assert (Hd : 1 <= d <= 53).
  { split; [ unfold d; lia | ].
    destruct (Z.le_gt_cases d 53) as [ | Hgt ]; [ assumption | exfalso ].
    assert (2 ^ 53 <= 2 ^ (d - 1)) by (apply Z.pow_le_mono_r; lia). lia. }
  unfold binary_round, shl_align, fexp, emin, prec, emax.
  fold d. replace (Z.max (d + 0 - 53) (3 - 1024 - 53) - 0) with (d - 53) by lia.
  replace (Z.max (d + 0 - 53) (3 - 1024 - 53)) with (d - 53) by lia.
  destruct (d - 53) as [ | p | p ] eqn:E; [ | lia | ].
  - exists m, 0. split; [ | split; [ lia | simpl; lia ] ].
    apply binary_round_aux_kept; [ fold d; lia | lia ].
  - exists (Pos.iter xO m p), (Zneg p).
    split; [ | split; [ lia | ] ].
    + apply binary_round_aux_kept; [ | lia ].
      rewrite iter_xO_digits. fold d. lia.
    + rewrite iter_xO_value. reflexivity.
Qed.

(** the float of an integer of magnitude at most 2^53 is that integer *)
Lemma float_of_Z_exact (n : Z) :
  Z.abs n <= 2 ^ 53 ->
  exists q, Q_of_float (float_of_Z n) = Some q /\ (q == inject_Z n)%Q.
Proof.
  intros Hn.
  destruct (Z.eq_dec (Z.abs n) (2 ^ 53)) as [Hmax | Hlt].
  - assert (Hcase : n = 2 ^ 53 \/ n = - 2 ^ 53) by lia.
    destruct Hcase as [-> | ->]; eexists; (split; [ vm_compute; reflexivity | ]);
      vm_compute; reflexivity.
  - destruct n as [ | m | m ].
    + exists 0%Q. split; reflexivity.
    + destruct (float_of_positive m false) as (m' & e & Hf & He & Hv);
        [ simpl in *; lia | ].
      unfold float_of_Z, binary_normalize. rewrite Hf. cbn [Q_of_float].
      eexists. split; [ reflexivity | ].
      destruct e as [ | p | p ]; try lia.
      * change (2 ^ (- 0)) with 1 in Hv.
        unfold Qeq. cbn [Qnum Qden inject_Z]. change (2 ^ 0) with 1. lia.
      * change (- Zneg p) with (Zpos p) in Hv.
        unfold Qeq. cbn [Qnum Qden inject_Z]. rewrite Pos2Z.inj_pow. lia.
    + destruct (float_of_positive m true) as (m' & e & Hf & He & Hv);
        [ simpl in *; lia | ].
      unfold float_of_Z, binary_normalize. rewrite Hf. cbn [Q_of_float].
      eexists. split; [ reflexivity | ].
      destruct e as [ | p | p ]; try lia.
      * change (2 ^ (- 0)) with 1 in Hv.
        unfold Qeq. cbn [Qnum Qden inject_Z]. change (2 ^ 0) with 1. lia.
      * change (- Zneg p) with (Zpos p) in Hv.
        unfold Qeq. cbn [Qnum Qden inject_Z]. rewrite Pos2Z.inj_pow. lia.
Qed.

(** a row read back from the table comes from an appended row, which
    comes from the response to the request of its own city *)
Lemma stored_row_origin (items : list (string * Coords)) (env : Env)
    (s : Session) (r : Row) :
  let run := fetch_weather_data_over items env s in
  In r (stored_table run) ->
  exists r0 i coords response,
    In r0 (table_of run)
    /\ r = typed_row (becomes_float64 (map Temperature (table_of run)))
             (becomes_float64 (map elevation (table_of run))) r0
    /\ nth_error items i = Some (City r, coords)
    /\ http_get env (List.length (requests_sent s) + i)
         (request_for (City r, coords)) = inr response
    /\ reading env (City r) coords response = Ok r0.
Proof.
  intros run Hin.
  assert (Hrun : fst run = Ok (pd_DataFrame (table_of run))).
  { unfold run. rewrite table_of_batch, fetch_weather_data_over_spec.
    reflexivity. }
  unfold stored_table in Hin. rewrite Hrun in Hin.
  unfold stored_rows in Hin. cbn [records pd_DataFrame] in Hin.
  apply in_map_iff in Hin. destruct Hin as (r0 & Hr & Hin0).
  pose proof Hin0 as Horigin. apply row_origin in Horigin.
  destruct Horigin as (i & city & coords & response & Hi & Hget & Hread).
  assert (Hcity : City r = city).
  { rewrite <- Hr. cbn [City typed_row].
    apply reading_Ok in Hread.
    destruct Hread as (? & ? & ? & ? & ? & H). tauto. }
  exists r0, i, coords, response. rewrite Hcity. auto.
Qed.

(** what a cell of a numeric column holds of the value put in it *)
Lemma typed_cell (float64 : bool) (v : value) :
  let cell := if float64 then as_float64 v else v in
  (cell = v
   \/ exists n, float64 = true /\ v = PInt n /\ cell = PFloat (float_of_Z n))
  /\ (float64 = false -> cell = v)
  /\ ((forall n, v <> PInt n) -> cell = v)
  /\ (forall n, v = PInt n -> Z.abs n <= 2 ^ 53 ->
      exists q, temperature_Q cell = Some q /\ (q == inject_Z n)%Q).
Proof.
  intros cell. unfold cell. clear cell.
  split; [ | split; [ | split ] ].
  - destruct float64; [ | left; reflexivity ].
    destruct v; simpl; try (left; reflexivity).
    right. exists z. auto.
  - intros ->. reflexivity.
  - intros Hv. destruct float64; [ | reflexivity ].
    destruct v; simpl; try reflexivity. destruct (Hv z). reflexivity.
  - intros n -> Hn. destruct float64; simpl.
    + apply float_of_Z_exact, Hn.
    + exists (inject_Z n). split; reflexivity.
Qed.

(** C10, as corrected: every row of the result table comes from the
    response to the request of its own city, and the row appended for
    that city holds the [temperature_2m] of that response exactly as
    parsed.  The table stores that value unchanged when the parsed value
    is a float or a bool, and whenever the Temperature column is not
    typed as binary64; in a column typed as binary64 (ints and floats
    together) a parsed int is stored as the nearest float, which is the
    same number whenever its magnitude is at most 2^53. *)
Theorem stored_temperature_is_the_parsed_value
    (items : list (string * Coords)) (env : Env) (s : Session) (r : Row) :
  In r (stored_table (fetch_weather_data_over items env s)) ->
  exists i coords response body current parsed,
    nth_error items i = Some (City r, coords)
    /\ http_get env (List.length (requests_sent s) + i)
         (request_for (City r, coords)) = inr response
    /\ json_body response = inr body
    /\ getitem body "current" = Ok current
    /\ getitem current "temperature_2m" = Ok parsed
    /\ (exists r0,
          In r0 (table_of (fetch_weather_data_over items env s))
          /\ City r0 = City r /\ Temperature r0 = parsed)
    /\ (Temperature r = parsed
        \/ exists n,
             becomes_float64
               (map Temperature
                  (table_of (fetch_weather_data_over items env s))) = true
             /\ parsed = PInt n
             /\ Temperature r = PFloat (float_of_Z n))
    /\ (becomes_float64
          (map Temperature (table_of (fetch_weather_data_over items env s)))
        = false -> Temperature r = parsed)
    /\ ((forall n, parsed <> PInt n) -> Temperature r = parsed)
    /\ (forall n, parsed = PInt n -> Z.abs n <= 2 ^ 53 ->
        exists q, temperature_Q (Temperature r) = Some q
                  /\ (q == inject_Z n)%Q).
Proof.
  intros Hin. apply stored_row_origin in Hin.
  destruct Hin as (r0 & i & coords & response & Hin0 & Hr & Hi & Hget & Hread).
  pose proof Hread as Hfields. apply reading_Ok in Hfields.
  destruct Hfields as (body & current & time & dt & temp & H).
  destruct H as (_ & Hb & Hc & _ & _ & Ht & _ & _ & HC & _ & _ & HT & _).
  exists i, coords, response, body, current, temp.
  repeat (split; [ assumption | ]).
  split; [ exists r0; auto | ].
  assert (Hcell : Temperature r
                  = if becomes_float64
                         (map Temperature
                            (table_of (fetch_weather_data_over items env s)))
                    then as_float64 temp else temp).
  { rewrite Hr. cbn [Temperature typed_row]. rewrite HT. reflexivity. }
  rewrite Hcell. apply typed_cell.
Qed.

Lemma stored_temperature_is_the_parsed_value_witness :
  In fukuoka_stored
    (stored_table
       (fetch_weather_data_over two_cities
          (env_first (PInt 12) (PFloat (float_of_decimal 225 1))
             "2024-06-01T15:00") fresh))
  /\ exists i coords response body current parsed,
       nth_error two_cities i = Some (City fukuoka_stored, coords)
       /\ http_get
            (env_first (PInt 12) (PFloat (float_of_decimal 225 1))
               "2024-06-01T15:00")
            (List.length (requests_sent fresh) + i)
            (request_for (City fukuoka_stored, coords)) = inr response
       /\ json_body response = inr body
       /\ getitem body "current" = Ok current
       /\ getitem current "temperature_2m" = Ok parsed
       /\ (exists r0,
             In r0 (table_of
                      (fetch_weather_data_over two_cities
                         (env_first (PInt 12) (PFloat (float_of_decimal 225 1))
                            "2024-06-01T15:00") fresh))
             /\ City r0 = City fukuoka_stored /\ Temperature r0 = parsed)
       /\ (Temperature fukuoka_stored = parsed
           \/ exists n,
                becomes_float64
                  (map Temperature
                     (table_of
                        (fetch_weather_data_over two_cities
                           (env_first (PInt 12)
                              (PFloat (float_of_decimal 225 1))
                              "2024-06-01T15:00") fresh))) = true
                /\ parsed = PInt n
                /\ Temperature fukuoka_stored = PFloat (float_of_Z n))
       /\ (becomes_float64
             (map Temperature
                (table_of
                   (fetch_weather_data_over two_cities
                      (env_first (PInt 12) (PFloat (float_of_decimal 225 1))
                         "2024-06-01T15:00") fresh)))
           = false -> Temperature fukuoka_stored = parsed)
       /\ ((forall n, parsed <> PInt n) -> Temperature fukuoka_stored = parsed)
       /\ (forall n, parsed = PInt n -> Z.abs n <= 2 ^ 53 ->
           exists q, temperature_Q (Temperature fukuoka_stored) = Some q
                     /\ (q == inject_Z n)%Q).
Proof.
  assert (H : In fukuoka_stored
                (stored_table
                   (fetch_weather_data_over two_cities
                      (env_first (PInt 12) (PFloat (float_of_decimal 225 1))
                         "2024-06-01T15:00") fresh)))
    by (vm_compute; left; reflexivity).
  split; [ exact H | ].
  exact (stored_temperature_is_the_parsed_value _ _ _ _ H).
Defined.

(** C10 as stated does not hold.  Fukuoka answers the int 2^53 + 1 and
    Saga the float 22.5: the Temperature column is typed as binary64 and
    the table holds 9007199254740992.0 for Fukuoka, which is another
    number than the one parsed from the response to Fukuoka's request;
    so it is not true that every row of the table holds the
    [temperature_2m] parsed for its city. *)
Lemma stored_temperature_can_be_rounded :
  let env :=
    env_first (PInt 9007199254740993) (PFloat (float_of_decimal 225 1))
      "2024-06-01T15:00" in
  let run := fetch_weather_data_over two_cities env fresh in
  nth_error (stored_table run) 0 = Some fukuoka_rounded
  /\ temperature_Q (Temperature fukuoka_rounded)
     = Some (inject_Z 9007199254740992)
  /\ ~ (inject_Z 9007199254740992 == inject_Z 9007199254740993)%Q
  /\ ~ (forall r,
          In r (stored_table run) ->
          exists i coords response body current,
            nth_error two_cities i = Some (City r, coords)
            /\ http_get env (List.length (requests_sent fresh) + i)
                 (request_for (City r, coords)) = inr response
            /\ json_body response = inr body
            /\ getitem body "current" = Ok current
            /\ exists parsed,
                 getitem current "temperature_2m" = Ok parsed
                 /\ same_number (Temperature r) parsed).
Proof.
  intros env run.
  assert (H0 : nth_error (stored_table run) 0 = Some fukuoka_rounded)
    by (vm_compute; reflexivity).
  split; [ exact H0 | ].
  split; [ vm_compute; reflexivity | ].
  split; [ unfold Qeq; simpl; lia | ].
  intros Hall.
  destruct (Hall _ (nth_error_In _ _ H0))
    as (i & coords & response & body & current & Hi & Hget & Hb & Hc
        & parsed & Ht & Hsame).
  destruct i as [ | [ | i ] ];
    [ | vm_compute in Hi; discriminate Hi
      | destruct i; vm_compute in Hi; discriminate Hi ].
  cbn in Hget. inversion Hget; subst response.
  cbn in Hb. inversion Hb; subst body.
  cbn in Hc. inversion Hc; subst current.
  cbn in Ht. inversion Ht; subst parsed.
  destruct Hsame as [Heq | (q & q' & Hq & Hq' & Heq)].
  - discriminate Heq.
  - vm_compute in Hq. vm_compute in Hq'.
    inversion Hq; subst q. inversion Hq'; subst q'.
    unfold Qeq in Heq. simpl in Heq. lia.
Qed.

(** C3, as corrected: every row of the result table comes from the
    response to the request of its own city, and the elevation computed
    for that city is the parsed temperature times 5000 as Python
    multiplies (the integer product for an int or a bool, the binary64
    product for a float), with nothing applied after it, also for a
    negative temperature.  The table stores that elevation unchanged
    when it is a float, and whenever the elevation column is not typed
    as binary64; in a column typed as binary64 an int elevation is stored
    as the nearest float, which is the same number whenever its
    magnitude is at most 2^53.  A temperature of -5 gives -25000. *)
Theorem stored_elevation_is_temperature_times_5000
    (items : list (string * Coords)) (env : Env) (s : Session) (r : Row) :
  In r (stored_table (fetch_weather_data_over items env s)) ->
  exists i coords response body current parsed computed,
    nth_error items i = Some (City r, coords)
    /\ http_get env (List.length (requests_sent s) + i)
         (request_for (City r, coords)) = inr response
    /\ json_body response = inr body
    /\ getitem body "current" = Ok current
    /\ getitem current "temperature_2m" = Ok parsed
    /\ mul parsed 5000 = Ok computed
    /\ (forall n, parsed = PInt n -> computed = PInt (n * 5000))
    /\ (forall f, parsed = PFloat f ->
        computed
        = PFloat (SFmul 53 1024 f (S754_finite false 5497558138880000 (-40))))
    /\ (forall b, parsed = PBool b -> computed = PInt (Z.b2z b * 5000))
    /\ (exists r0,
          In r0 (table_of (fetch_weather_data_over items env s))
          /\ City r0 = City r /\ Temperature r0 = parsed
          /\ elevation r0 = computed)
    /\ (elevation r = computed
        \/ exists z,
             becomes_float64
               (map elevation
                  (table_of (fetch_weather_data_over items env s))) = true
             /\ computed = PInt z
             /\ elevation r = PFloat (float_of_Z z))
    /\ (becomes_float64
          (map elevation (table_of (fetch_weather_data_over items env s)))
        = false -> elevation r = computed)
    /\ ((forall z, computed <> PInt z) -> elevation r = computed)
    /\ (forall z, computed = PInt z -> Z.abs z <= 2 ^ 53 ->
        exists q, temperature_Q (elevation r) = Some q
                  /\ (q == inject_Z z)%Q)
    /\ (parsed = PInt (-5) ->
        exists q, temperature_Q (elevation r) = Some q
                  /\ (q == inject_Z (-25000))%Q)
    /\ (parsed = PFloat (S754_finite true 5629499534213120 (-50)) ->
        elevation r = PFloat (S754_finite true 6871947673600000 (-38))).
Proof.
  intros Hin. apply stored_row_origin in Hin.
  destruct Hin as (r0 & i & coords & response & Hin0 & Hr & Hi & Hget & Hread).
  pose proof Hread as Hfields. apply reading_Ok in Hfields.
  destruct Hfields as (body & current & time & dt & temp & H).
  destruct H as (_ & Hb & Hc & _ & _ & Ht & _ & He & HC & _ & _ & HT & _).
  exists i, coords, response, body, current, temp, (elevation r0).
  repeat (split; [ assumption | ]).
  assert (Hn : forall n, temp = PInt n -> elevation r0 = PInt (n * 5000)).
  { intros n Hn. rewrite Hn in He. simpl in He. congruence. }
  assert (Hf : forall f, temp = PFloat f ->
                 elevation r0
                 = PFloat (SFmul 53 1024 f
                             (S754_finite false 5497558138880000 (-40)))).
  { intros f Hf. rewrite Hf in He. simpl in He. inversion He. reflexivity. }
  split; [ exact Hn | ]. split; [ exact Hf | ].
  split; [ intros b Hbool; rewrite Hbool in He; simpl in He; congruence | ].
  split; [ exists r0; auto | ].
  assert (Hcell : elevation r
                  = if becomes_float64
                         (map elevation
                            (table_of (fetch_weather_data_over items env s)))
                    then as_float64 (elevation r0) else elevation r0).
  { rewrite Hr. reflexivity. }
  rewrite Hcell.
  destruct (typed_cell
              (becomes_float64
                 (map elevation
                    (table_of (fetch_weather_data_over items env s))))
              (elevation r0)) as (H1 & H2 & H3 & H4).
  split; [ exact H1 | ]. split; [ exact H2 | ]. split; [ exact H3 | ].
  split; [ exact H4 | ].
  split.
  - intros Hp. apply H4; [ apply (Hn _ Hp) | simpl; lia ].
  - intros Hp. rewrite H3.
    + rewrite (Hf _ Hp). reflexivity.
    + intros z Hz. rewrite (Hf _ Hp) in Hz. discriminate Hz.
Qed.

Lemma stored_elevation_is_temperature_times_5000_witness :
  In fukuoka_stored
    (stored_table
       (fetch_weather_data_over two_cities
          (env_first (PInt 12) (PFloat (float_of_decimal 225 1))
             "2024-06-01T15:00") fresh))
  /\ exists i coords response body current parsed computed,
       nth_error two_cities i = Some (City fukuoka_stored, coords)
       /\ http_get
            (env_first (PInt 12) (PFloat (float_of_decimal 225 1))
               "2024-06-01T15:00")
            (List.length (requests_sent fresh) + i)
            (request_for (City fukuoka_stored, coords)) = inr response
       /\ json_body response = inr body
       /\ getitem body "current" = Ok current
       /\ getitem current "temperature_2m" = Ok parsed
       /\ mul parsed 5000 = Ok computed
       /\ (elevation fukuoka_stored = computed
           \/ exists z,
                computed = PInt z
                /\ elevation fukuoka_stored = PFloat (float_of_Z z)).
Proof.
  assert (H : In fukuoka_stored
                (stored_table
                   (fetch_weather_data_over two_cities
                      (env_first (PInt 12) (PFloat (float_of_decimal 225 1))
                         "2024-06-01T15:00") fresh)))
    by (vm_compute; left; reflexivity).
  split; [ exact H | ].
  destruct (stored_elevation_is_temperature_times_5000 _ _ _ _ H)
    as (i & coords & response & body & current & parsed & computed & Hi & Hget
        & Hb & Hc & Ht & Hmul & _ & _ & _ & _ & Hcell & _).
  exists i, coords, response, body, current, parsed, computed.
  repeat (split; [ assumption | ]).
  destruct Hcell as [Hsame | (z & _ & Hz & Hstored)];
    [ left; exact Hsame | right; exists z; auto ].
Defined.

(** C3 as stated does not hold.  Fukuoka answers the int 2^50 + 1 and
    Saga the float 22.5: the elevation computed for Fukuoka is the int
    5629499534213125000, the elevation column is typed as binary64 and
    the table holds 5629499534213125120.0, another number than the
    parsed temperature times 5000. *)
Lemma stored_elevation_can_be_rounded :
  let env :=
    env_first (PInt 1125899906842625) (PFloat (float_of_decimal 225 1))
      "2024-06-01T15:00" in
  let run := fetch_weather_data_over two_cities env fresh in
  nth_error (stored_table run) 0 = Some fukuoka_high
  /\ mul (PInt 1125899906842625) 5000 = Ok (PInt 5629499534213125000)
  /\ temperature_Q (elevation fukuoka_high)
     = Some (inject_Z 5629499534213125120)
  /\ ~ (forall r,
          In r (stored_table run) ->
          exists i coords response body current,
            nth_error two_cities i = Some (City r, coords)
            /\ http_get env (List.length (requests_sent fresh) + i)
                 (request_for (City r, coords)) = inr response
            /\ json_body response = inr body
            /\ getitem body "current" = Ok current
            /\ exists parsed computed,
                 getitem current "temperature_2m" = Ok parsed
                 /\ mul parsed 5000 = Ok computed
                 /\ same_number (elevation r) computed).
Proof.
  intros env run.
  assert (H0 : nth_error (stored_table run) 0 = Some fukuoka_high)
    by (vm_compute; reflexivity).
  split; [ exact H0 | ].
  split; [ reflexivity | ].
  split; [ vm_compute; reflexivity | ].
  intros Hall.
  destruct (Hall _ (nth_error_In _ _ H0))
    as (i & coords & response & body & current & Hi & Hget & Hb & Hc
        & parsed & computed & Ht & Hmul & Hsame).
  destruct i as [ | [ | i ] ];
    [ | vm_compute in Hi; discriminate Hi
      | destruct i; vm_compute in Hi; discriminate Hi ].
  cbn in Hget. inversion Hget; subst response.
  cbn in Hb. inversion Hb; subst body.
  cbn in Hc. inversion Hc; subst current.
  cbn in Ht. inversion Ht; subst parsed.
  cbn in Hmul. inversion Hmul; subst computed.
  destruct Hsame as [Heq | (q & q' & Hq & Hq' & Heq)].
  - discriminate Heq.
  - vm_compute in Hq. vm_compute in Hq'.
    inversion Hq; subst q. inversion Hq'; subst q'.
    unfold Qeq in Heq. simpl in Heq. lia.
Qed.

(** ** The display format of the observation time *)

Lemma year_of_four_digits (y : Z) :
  1000 <= y <= 9999 -> digits_only 4 (Datetime.str_of_Z y) = true.
Proof.
  intros Hy.
  assert (Hall : forallb
                   (fun n => digits_only 4
                               (Datetime.str_of_Z (1000 + Z.of_nat n)))
                   (seq 0 (Z.to_nat 9000)) = true) by (vm_compute; reflexivity).
  rewrite forallb_forall in Hall.
  replace y with (1000 + Z.of_nat (Z.to_nat (y - 1000))) by lia.
  apply Hall. apply in_seq. lia.
Qed.

Lemma year_below_1000 (y : Z) :
  1 <= y <= 999 -> at_most_three (Datetime.str_of_Z y) = true.
Proof.
  intros Hy.
  assert (Hall : forallb
                   (fun n => at_most_three (Datetime.str_of_Z (Z.of_nat n)))
                   (seq 0 (Z.to_nat 1000)) = true) by (vm_compute; reflexivity).
  rewrite forallb_forall in Hall.
  replace y with (Z.of_nat (Z.to_nat y)) by lia.
  apply Hall. apply in_seq. lia.
Qed.

Lemma padded_two (x : Z) :
  0 <= x <= 99 ->
  digits_only 2 (Datetime.zfill 2 (Datetime.str_of_Z x)) = true.
Proof.
  intros Hx.
  assert (Hall : forallb
                   (fun n => digits_only 2
                               (Datetime.zfill 2
                                  (Datetime.str_of_Z (Z.of_nat n))))
                   (seq 0 (Z.to_nat 100)) = true) by (vm_compute; reflexivity).
  rewrite forallb_forall in Hall.
  replace x with (Z.of_nat (Z.to_nat x)) by lia.
  apply Hall. apply in_seq. lia.
Qed.

Lemma digits_only_two (s : string) :
  digits_only 2 s = true ->
  exists a b, s = String a (String b "")
              /\ is_digit a = true /\ is_digit b = true.
Proof.
  destruct s as [ | a [ | b [ | c s ] ] ]; simpl; try discriminate.
  - rewrite andb_false_r. discriminate.
  - rewrite andb_true_r. intros H. apply andb_prop in H. exists a, b. tauto.
  - rewrite !andb_false_r. discriminate.
Qed.

Lemma digits_only_four (s : string) :
  digits_only 4 s = true ->
  exists a b c d, s = String a (String b (String c (String d "")))
                  /\ is_digit a = true /\ is_digit b = true
                  /\ is_digit c = true /\ is_digit d = true.
Proof.
  destruct s as [ | a [ | b s ] ]; simpl; try discriminate.
  - rewrite andb_false_r. discriminate.
  - intros H. apply andb_prop in H. destruct H as [Ha H].
    apply andb_prop in H. destruct H as [Hb H].
    apply digits_only_two in H. destruct H as (c & d & Hs & Hc & Hd).
    exists a, b, c, d. subst. tauto.
Qed.

Lemma display_of_format (y mo d h mi : Z) :
  1000 <= y <= 9999 -> 0 <= mo <= 99 -> 0 <= d <= 99 -> 0 <= h <= 99 ->
  0 <= mi <= 99 ->
  is_display_format (display_of y mo d h mi) = true.
Proof.
  intros Hy Hmo Hd Hh Hmi. unfold display_of.
  destruct (digits_only_four _ (year_of_four_digits y Hy))
    as (y1 & y2 & y3 & y4 & -> & Hy1 & Hy2 & Hy3 & Hy4).
  destruct (digits_only_two _ (padded_two mo Hmo)) as (m1 & m2 & -> & Hm1 & Hm2).
  destruct (digits_only_two _ (padded_two d Hd)) as (d1 & d2 & -> & Hd1 & Hd2).
  destruct (digits_only_two _ (padded_two h Hh)) as (h1 & h2 & -> & Hh1 & Hh2).
  destruct (digits_only_two _ (padded_two mi Hmi)) as (n1 & n2 & -> & Hn1 & Hn2).
  unfold is_display_format. simpl.
  rewrite Hy1, Hy2, Hy3, Hy4, Hm1, Hm2, Hd1, Hd2, Hh1, Hh2, Hn1, Hn2.
  reflexivity.
Qed.

Lemma display_of_early_year (y mo d h mi : Z) :
  1 <= y <= 999 -> 0 <= mo <= 99 -> 0 <= d <= 99 -> 0 <= h <= 99 ->
  0 <= mi <= 99 ->
  is_display_format (display_of y mo d h mi) = false.
Proof.
  intros Hy Hmo Hd Hh Hmi. unfold display_of.
  pose proof (year_below_1000 y Hy) as Hshort.
  destruct (digits_only_two _ (padded_two mo Hmo)) as (m1 & m2 & -> & _).
  destruct (digits_only_two _ (padded_two d Hd)) as (d1 & d2 & -> & _).
  destruct (digits_only_two _ (padded_two h Hh)) as (h1 & h2 & -> & _).
  destruct (digits_only_two _ (padded_two mi Hmi)) as (n1 & n2 & -> & _).
  destruct (Datetime.str_of_Z y) as [ | a [ | b [ | c [ | e rest ] ] ] ];
    try reflexivity.
  discriminate Hshort.
Qed.

Lemma append_empty_r (s : string) : s ++ "" = s.
Proof.
  induction s as [ | c s IH ]; simpl; [ | rewrite IH ]; reflexivity.
Qed.

Lemma strftime_display (dt : Datetime.datetime) :
  Datetime.strftime dt "%Y/%m/%d %H:%M"
  = display_of (Datetime.year dt) (Datetime.month dt) (Datetime.day dt)
      (Datetime.hour dt) (Datetime.minute dt).
Proof.
  unfold display_of.
  rewrite <- (append_empty_r
                (Datetime.zfill 2 (Datetime.str_of_Z (Datetime.minute dt)))).
  reflexivity.
Qed.

Lemma days_in_month_le (y mo : Z) :
  1 <= mo <= 12 -> Datetime.days_in_month y mo <= 31.
Proof.
  intros H. unfold Datetime.days_in_month.
  destruct ((mo =? 2) && Datetime.is_leap y); [ lia | ].
  assert (Hn : (Z.to_nat mo = 1 \/ Z.to_nat mo = 2 \/ Z.to_nat mo = 3
                \/ Z.to_nat mo = 4 \/ Z.to_nat mo = 5 \/ Z.to_nat mo = 6
                \/ Z.to_nat mo = 7 \/ Z.to_nat mo = 8 \/ Z.to_nat mo = 9
                \/ Z.to_nat mo = 10 \/ Z.to_nat mo = 11
                \/ Z.to_nat mo = 12)%nat) by lia.
  repeat (destruct Hn as [Hn | Hn]; [ rewrite Hn; simpl; lia | ]).
  rewrite Hn; simpl; lia.
Qed.

Lemma datetime_ranges (dt : Datetime.datetime) :
  1 <= Datetime.year dt <= 9999
  /\ 1 <= Datetime.month dt <= 12
  /\ 1 <= Datetime.day dt <= 31
  /\ 0 <= Datetime.hour dt <= 23
  /\ 0 <= Datetime.minute dt <= 59.
Proof.
  pose proof (Datetime.fields_ok dt) as H.
  unfold Datetime.check_fields, Datetime.between in H.
  repeat (apply andb_prop in H; destruct H as [H ?]).
  repeat match goal with
         | H : (_ <=? _) = true |- _ => apply Z.leb_le in H
         end.
  pose proof (days_in_month_le (Datetime.year dt) (Datetime.month dt)).
  lia.
Qed.

Lemma strftime_format (dt : Datetime.datetime) :
  (1000 <= Datetime.year dt ->
   is_display_format (Datetime.strftime dt "%Y/%m/%d %H:%M") = true)
  /\ (Datetime.year dt < 1000 ->
      is_display_format (Datetime.strftime dt "%Y/%m/%d %H:%M") = false).
Proof.
  rewrite strftime_display.
  pose proof (datetime_ranges dt).
  split; intros Hy.
  - apply display_of_format; lia.
  - apply display_of_early_year; lia.
Qed.

(** C5, as corrected: every row of the result table comes from the
    response to the request of its own city, and its observation time
    is the [time] string of that response, parsed as ISO-8601 and
    written as year/month/day hour:minute, month, day, hour and minute
    on two digits and the year as it is.  From the year 1000 on this has
    the shape YYYY/MM/DD HH:MM; for an earlier year the year has fewer
    than four digits and the string is shorter.  Only the calendar
    date, the hour and the minute of the parsed timestamp are used: any
    timestamp that has them in common gives the same string, whatever
    its offset from UTC and however the offset was written. *)
Theorem observed_at_is_reformatted (items : list (string * Coords)) (env : Env)
    (s : Session) (r : Row) :
  In r (stored_table (fetch_weather_data_over items env s)) ->
  exists i coords response body current time dt,
    nth_error items i = Some (City r, coords)
    /\ http_get env (List.length (requests_sent s) + i)
         (request_for (City r, coords)) = inr response
    /\ json_body response = inr body
    /\ getitem body "current" = Ok current
    /\ getitem current "time" = Ok (PStr time)
    /\ fromisoformat env time = inr dt
    /\ Time r = display_of (Datetime.year dt) (Datetime.month dt)
                  (Datetime.day dt) (Datetime.hour dt) (Datetime.minute dt)
    /\ (1000 <= Datetime.year dt -> is_display_format (Time r) = true)
    /\ (Datetime.year dt < 1000 -> is_display_format (Time r) = false)
    /\ forall dt',
         Datetime.year dt' = Datetime.year dt ->
         Datetime.month dt' = Datetime.month dt ->
         Datetime.day dt' = Datetime.day dt ->
         Datetime.hour dt' = Datetime.hour dt ->
         Datetime.minute dt' = Datetime.minute dt ->
         Datetime.strftime dt' "%Y/%m/%d %H:%M" = Time r.
Proof.
  intros Hin. apply stored_row_origin in Hin.
  destruct Hin as (r0 & i & coords & response & Hin0 & Hr & Hi & Hget & Hread).
  apply reading_Ok in Hread.
  destruct Hread as (body & current & time & dt & temp & H).
  destruct H as (_ & Hb & Hc & Ht & Hdt & _ & _ & _ & _ & _ & _ & _ & HT).
  assert (HTr : Time r = Datetime.strftime dt "%Y/%m/%d %H:%M")
    by (rewrite Hr; exact HT).
  destruct time as [ | | | | t | | ]; simpl in Hdt; try discriminate.
  destruct (fromisoformat env t) as [msg | dt0] eqn:Hparse; [ discriminate | ].
  inversion Hdt; subst dt0.
  exists i, coords, response, body, current, t, dt.
  repeat (split; [ assumption | ]).
  split; [ rewrite HTr; apply strftime_display | ].
  split; [ rewrite HTr; apply strftime_format | ].
  split; [ rewrite HTr; apply strftime_format | ].
  intros dt' Hy Hmo Hd Hh Hmi.
  rewrite HTr, !strftime_display. congruence.
Qed.

Lemma observed_at_is_reformatted_witness :
  In tokyo_warm
    (stored_table
       (fetch_weather_data_over [tokyo]
          (env_steady (PFloat (float_of_decimal 225 1))
             "2024-06-01T15:00+09:00") fresh))
  /\ exists i coords response body current time dt,
       nth_error [tokyo] i = Some (City tokyo_warm, coords)
       /\ http_get
            (env_steady (PFloat (float_of_decimal 225 1))
               "2024-06-01T15:00+09:00")
            (List.length (requests_sent fresh) + i)
            (request_for (City tokyo_warm, coords)) = inr response
       /\ json_body response = inr body
       /\ getitem body "current" = Ok current
       /\ getitem current "time" = Ok (PStr time)
       /\ Datetime.fromisoformat time = inr dt
       /\ Time tokyo_warm
          = display_of (Datetime.year dt) (Datetime.month dt)
              (Datetime.day dt) (Datetime.hour dt) (Datetime.minute dt)
       /\ (1000 <= Datetime.year dt ->
           is_display_format (Time tokyo_warm) = true).
Proof.
  assert (H : In tokyo_warm
                (stored_table
                   (fetch_weather_data_over [tokyo]
                      (env_steady (PFloat (float_of_decimal 225 1))
                         "2024-06-01T15:00+09:00") fresh)))
    by (vm_compute; left; reflexivity).
  split; [ exact H | ].
  destruct (observed_at_is_reformatted _ _ _ _ H)
    as (i & coords & response & body & current & time & dt & Hi & Hget & Hb
        & Hc & Ht & Hdt & HT & Hfmt & _).
  exists i, coords, response, body, current, time, dt. auto 10.
Defined.

(** C5 as stated does not hold.  The service answers Tokyo with the
    timestamp 0999-01-01T00:00, which the parser accepts: the year is
    written without its leading zero, the observation time is
    999/01/01 00:00, and that is not of the shape YYYY/MM/DD HH:MM. *)
Lemma early_year_is_not_padded :
  let run :=
    fetch_weather_data_over [tokyo]
      (env_steady (PFloat (float_of_decimal 225 1)) "0999-01-01T00:00")
      fresh in
  stored_table run = [tokyo_year_999]
  /\ Time tokyo_year_999 = "999/01/01 00:00"
  /\ is_display_format (Time tokyo_year_999) = false
  /\ ~ (forall r, In r (stored_table run) -> is_display_format (Time r) = true).
Proof.
  intros run.
  assert (H0 : stored_table run = [tokyo_year_999]) by (vm_compute; reflexivity).
  split; [ exact H0 | ].
  split; [ reflexivity | ].
  split; [ reflexivity | ].
  intros Hall.
  assert (Hin : In tokyo_year_999 (stored_table run))
    by (rewrite H0; left; reflexivity).
  apply Hall in Hin. discriminate Hin.
Qed.

(** with the reference parser, one local time under several offsets *)
Lemma offsets_do_not_change_display :
  map (fun time =>
         match Datetime.fromisoformat time with
         | inr dt => Datetime.strftime dt "%Y/%m/%d %H:%M"
         | inl msg => msg
         end)
    [ "2024-06-01T15:00"; "2024-06-01T15:00+09:00"; "2024-06-01T15:00-05:00";
      "2024-06-01T15:00:00+00:00"; "2024-06-01 15:00:30.250+05:30:15" ]
  = [ "2024/06/01 15:00"; "2024/06/01 15:00"; "2024/06/01 15:00";
      "2024/06/01 15:00"; "2024/06/01 15:00" ].
Proof. vm_compute. reflexivity. Qed.

(** ** The cache and the page *)

Lemma fetch_weather_data_spec (env : Env) (now : Z) (s : Session) :
  fetch_weather_data env now s =
    match cache s with
    | Some entry =>
        if now - stored_at entry <? 600 then
          (Ok (cached_value entry),
           {| requests_sent := requests_sent s;
              page := (page s ++ cached_elements entry)%list;
              cache := cache s |})
        else miss env now s
    | None => miss env now s
    end.
Proof.
  unfold fetch_weather_data, st_cache_data, miss.
  rewrite fetch_weather_data_over_spec. simpl.
  destruct (cache s) as [entry | ]; [ | reflexivity ].
  destruct (now - stored_at entry <? 600); reflexivity.
Qed.






(** the third scenario of the specification: one request of the nine
    raises, here the one for Nagasaki *)
Lemma one_failure_of_nine :
  let run :=
    fetch_weather_data_over target_cities
      (env_one_down 2 (PFloat (float_of_decimal 225 1)) "2024-06-01T15:00")
      fresh in
  len (match fst run with Ok df => df | Raise _ => pd_DataFrame [] end) = 8%nat
  /\ map City (table_of run)
     = ["Fukuoka"; "Saga"; "Kumamoto"; "Oita"; "Miyazaki"; "Kagoshima";
        "Osaka"; "Tokyo"]
  /\ page (snd run) = [Error "Error fetching Nagasaki: Connection refused"].
Proof. vm_compute. repeat split. Qed.

(** ** No city answers *)

Lemma rows_of_all_failed (env : Env) (items : list (string * Coords)) :
  (forall k req, exists msg, http_get env k req = inl msg) ->
  forall k, rows_of (attempts env k items) = [].
Proof.
  intros Hdown. induction items as [ | item rest IH ]; intros k; simpl.
  - reflexivity.
  - unfold attempt. destruct (Hdown k (request_for item)) as [msg ->].
    apply IH.
Qed.

(** When no request succeeds and nothing is cached, the table returned
    has no column and the run stops on the [KeyError] of the column
    selection, before the table and the chart are drawn. *)
Lemma no_answer_no_render (env : Env) (now : Z) (clicked : bool) (s : Session) :
  (forall k req, exists msg, http_get env k req = inl msg) ->
  cache s = None ->
  exists s',
    run_script env now clicked s
    = (Raise (mk_exn KeyError "None of the labels are in the [columns]"), s')
    /\ existsb is_table (page s') = false
    /\ existsb is_chart (page s') = false.
Proof.
  intros Hdown Hcache.
  unfold run_script, script, bind, draw.
  rewrite fetch_weather_data_spec.
  cbn [cache requests_sent page]. rewrite Hcache. unfold miss.
  cbn [cache requests_sent page].
  rewrite (rows_of_all_failed env target_cities Hdown).
  cbn [pd_DataFrame lift getitem_columns forallb has_column existsb columns
       andb orb].
  eexists. split; [ reflexivity | ].
  cbn [page app].
  set (os := attempts env _ target_cities).
  assert (Herr : forall os, existsb is_table (errors_of os) = false
                            /\ existsb is_chart (errors_of os) = false).
  { clear. induction os as [ | [c [r | e]] os IH ]; simpl; auto. }
  destruct (Herr os) as [Ht Hc].
  cbn [existsb is_table is_chart orb].
  rewrite !existsb_app, Ht, Hc. split; reflexivity.
Qed.

(** C4, on the code: with the network down for the nine cities, the
    batch returns an empty table, and the page script then raises
    [KeyError] on the selection of the three columns instead of drawing
    the table and the chart. *)
Theorem network_down_stops_the_page (now now' : Z) :
  table_of (fetch_weather_data_over target_cities env_down fresh) = []
  /\ fst (serve env_down now now' false fresh)
     = Raise (mk_exn KeyError "None of the labels are in the [columns]")
  /\ existsb is_table (page (snd (serve env_down now now' false fresh))) = false
  /\ existsb is_chart (page (snd (serve env_down now now' false fresh))) = false.
Proof.
  split; [ vm_compute; reflexivity | ].
  destruct (no_answer_no_render env_down now false fresh) as (s' & Hrun & Ht & Hc).
  - intros k req. exists "Connection refused". reflexivity.
  - reflexivity.
  - unfold serve. rewrite Hrun. simpl. auto.
Qed.

(** * Further properties of the batch and of the page *)

Lemma shr_1_nonneg (mrs : shr_record) :
  0 <= shr_m mrs -> 0 <= shr_m (shr_1 mrs).
Proof.
  destruct mrs as [m r s]. simpl.
  destruct m as [ | [ p | p | ] | p ]; simpl; lia.
Qed.

Lemma iter_shr_1_nonneg (p : positive) :
  forall mrs, 0 <= shr_m mrs -> 0 <= shr_m (iter_pos shr_1 p mrs).
Proof.
  induction p as [ p IH | p IH | ]; intros mrs H; simpl.
  - apply IH, IH, shr_1_nonneg, H.
  - apply IH, IH, H.
  - apply shr_1_nonneg, H.
Qed.

Lemma shr_fexp_nonneg (m e : Z) (l : location) :
  0 <= m -> 0 <= shr_m (fst (shr_fexp prec emax m e l)).
Proof.
  intros H. unfold shr_fexp, shr.
  assert (H0 : 0 <= shr_m (shr_record_of_loc m l))
    by (destruct l as [ | [ | | ] ]; exact H).
  destruct (fexp prec emax (Zdigits2 m + e) - e); simpl;
    auto using iter_shr_1_nonneg.
Qed.

Lemma round_nearest_even_nonneg (m : Z) (l : location) :
  0 <= m -> 0 <= round_nearest_even m l.
Proof.
  intros H. unfold round_nearest_even.
  destruct l as [ | [ | | ] ]; try destruct (Z.even m); lia.
Qed.

(** rounding a non-negative mantissa keeps the sign it was given *)
Lemma binary_round_aux_sign (sx : bool) (mx ex : Z) (lx : location) :
  0 <= mx ->
  float_sign (binary_round_aux prec emax sx mx ex lx) = Some sx.
Proof.
  intros H. unfold binary_round_aux.
  pose proof (shr_fexp_nonneg mx ex lx H) as H1.
  destruct (shr_fexp prec emax mx ex lx) as [mrs' e']. simpl in H1.
  pose proof (shr_fexp_nonneg _ e' loc_Exact
                (round_nearest_even_nonneg _ (loc_of_shr_record mrs') H1)) as H2.
  destruct (shr_fexp prec emax _ e' loc_Exact) as [mrs'' e'']. simpl in H2.
  destruct (shr_m mrs'') as [ | m | m ]; [ reflexivity | | lia ].
  destruct (e'' <=? emax - prec); reflexivity.
Qed.

Lemma mul_5000_sign (f : float) :
  float_sign (SFmul prec emax f (float_of_Z 5000)) = float_sign f.
Proof.
  change (float_of_Z 5000) with (S754_finite false 5497558138880000 (-40)).
  destruct f as [ s | s | | s m e ]; simpl; try (rewrite xorb_false_r; reflexivity).
  - reflexivity.
  - rewrite binary_round_aux_sign by lia. rewrite xorb_false_r. reflexivity.
Qed.

Lemma float_same_eq (f g : float) : float_same f g = true -> f = g.
Proof.
  destruct f, g; simpl; try discriminate; intros H.
  - apply Bool.eqb_prop in H. congruence.
  - apply Bool.eqb_prop in H. congruence.
  - reflexivity.
  - apply andb_prop in H. destruct H as [H He].
    apply andb_prop in H. destruct H as [Hs Hm].
    apply Bool.eqb_prop in Hs. apply Pos.eqb_eq in Hm. apply Z.eqb_eq in He.
    congruence.
Qed.

(** X8: for a float temperature the elevation is a float with the sign
    of the temperature (negative stays negative, also as negative zero
    or negative infinity), and it is NaN only for a NaN temperature. *)
Theorem elevation_keeps_the_sign (items : list (string * Coords)) (env : Env)
    (s : Session) (r : Row) (f : float) :
  In r (table_of (fetch_weather_data_over items env s)) ->
  Temperature r = PFloat f ->
  exists g, elevation r = PFloat g /\ float_sign g = float_sign f.
Proof.
  intros Hin HT. pose proof (row_elevation _ _ _ _ Hin) as He.
  rewrite HT in He. simpl in He. inversion He as [Hg].
  eexists. split; [ reflexivity | ]. apply mul_5000_sign.
Qed.

Lemma elevation_keeps_the_sign_witness :
  In tokyo_cold
    (table_of (fetch_weather_data_over [tokyo]
                 (env_steady (PFloat (float_of_decimal (-32) 1))
                    "2024-06-01T15:00") fresh))
  /\ Temperature tokyo_cold = PFloat (float_of_decimal (-32) 1)
  /\ exists g, elevation tokyo_cold = PFloat g
               /\ float_sign g = float_sign (float_of_decimal (-32) 1).
Proof.
  assert (H : In tokyo_cold
                (table_of (fetch_weather_data_over [tokyo]
                             (env_steady (PFloat (float_of_decimal (-32) 1))
                                "2024-06-01T15:00") fresh)))
    by (vm_compute; left; reflexivity).
  split; [ exact H | split; [ reflexivity | ] ].
  exact (elevation_keeps_the_sign _ _ _ _ _ H eq_refl).
Defined.

Lemma tenths_times_5000 (n : Z) :
  -1000 <= n <= 1000 ->
  SFmul prec emax (float_of_decimal n 1) (float_of_Z 5000)
  = float_of_Z (500 * n).
Proof.
  intros Hn.
  assert (Hall : forallb
                   (fun i =>
                      let n := Z.of_nat i - 1000 in
                      float_same
                        (SFmul prec emax (float_of_decimal n 1)
                           (float_of_Z 5000))
                        (float_of_Z (500 * n)))
                   (seq 0 (Z.to_nat 2001)) = true)
    by (vm_compute; reflexivity).
  rewrite forallb_forall in Hall.
  specialize (Hall (Z.to_nat (n + 1000))).
  cbv zeta in Hall.
  replace (Z.of_nat (Z.to_nat (n + 1000)) - 1000) with n in Hall by lia.
  apply float_same_eq, Hall. apply in_seq. lia.
Qed.

(** X9: for a temperature read from a decimal with one digit after the
    point, between -100.0 and 100.0, the float product by 5000 is exact:
    the elevation is the float of the integer 500 times the number of
    tenths. *)
Theorem one_decimal_elevation_is_exact (items : list (string * Coords))
    (env : Env) (s : Session) (r : Row) (n : Z) :
  In r (table_of (fetch_weather_data_over items env s)) ->
  -1000 <= n <= 1000 ->
  Temperature r = PFloat (float_of_decimal n 1) ->
  elevation r = PFloat (float_of_Z (500 * n)).
Proof.
  intros Hin Hn HT. pose proof (row_elevation _ _ _ _ Hin) as He.
  rewrite HT in He. simpl in He. inversion He as [Hg].
  rewrite tenths_times_5000 by exact Hn. reflexivity.
Qed.

Lemma one_decimal_elevation_is_exact_witness :
  In tokyo_cold
    (table_of (fetch_weather_data_over [tokyo]
                 (env_steady (PFloat (float_of_decimal (-32) 1))
                    "2024-06-01T15:00") fresh))
  /\ -1000 <= -32 <= 1000
  /\ Temperature tokyo_cold = PFloat (float_of_decimal (-32) 1)
  /\ elevation tokyo_cold = PFloat (float_of_Z (500 * -32)).
Proof.
  assert (H : In tokyo_cold
                (table_of (fetch_weather_data_over [tokyo]
                             (env_steady (PFloat (float_of_decimal (-32) 1))
                                "2024-06-01T15:00") fresh)))
    by (vm_compute; left; reflexivity).
  assert (Hn : -1000 <= -32 <= 1000) by lia.
  split; [ exact H | split; [ exact Hn | split; [ reflexivity | ] ] ].
  exact (one_decimal_elevation_is_exact _ _ _ _ (-32) H Hn eq_refl).
Defined.

(** X5: the city, latitude and longitude of a row are those of one
    entry of the input table; nothing of the position comes from the
    response. *)
Theorem row_position_is_the_table_entry (items : list (string * Coords))
    (env : Env) (s : Session) (r : Row) :
  In r (table_of (fetch_weather_data_over items env s)) ->
  exists i coords,
    nth_error items i = Some (City r, coords)
    /\ lat r = coords_lat coords
    /\ lon r = coords_lon coords.
Proof.
  intros Hin. apply row_origin in Hin.
  destruct Hin as (i & city & coords & response & Hi & _ & Hread).
  apply reading_Ok in Hread.
  destruct Hread as (body & current & time & dt & temp & H).
  destruct H as (_ & _ & _ & _ & _ & _ & _ & _ & HC & Hlat & Hlon & _).
  exists i, coords. rewrite HC. auto.
Qed.

Lemma row_position_is_the_table_entry_witness :
  In tokyo_warm
    (table_of (fetch_weather_data_over [tokyo]
                 (env_steady (PFloat (float_of_decimal 225 1))
                    "2024-06-01T15:00") fresh))
  /\ exists i coords,
       nth_error [tokyo] i = Some (City tokyo_warm, coords)
       /\ lat tokyo_warm = coords_lat coords
       /\ lon tokyo_warm = coords_lon coords.
Proof.
  assert (H : In tokyo_warm
                (table_of (fetch_weather_data_over [tokyo]
                             (env_steady (PFloat (float_of_decimal 225 1))
                                "2024-06-01T15:00") fresh)))
    by (vm_compute; left; reflexivity).
  split; [ exact H | exact (row_position_is_the_table_entry _ _ _ _ H) ].
Defined.

(** dropping the failures keeps the city names apart *)
Lemma succeeded_cities_distinct (os : list (string * result Row)) :
  NoDup (map fst os) -> NoDup (map fst (filter succeeded os)).
Proof.
  induction os as [ | o os IH ]; simpl; intros Hdistinct.
  - constructor.
  - apply NoDup_cons_iff in Hdistinct. destruct Hdistinct as [Hfresh Hrest].
    destruct (succeeded o); simpl; [ | exact (IH Hrest) ].
    apply NoDup_cons_iff. split; [ | exact (IH Hrest) ].
    intros Hin. apply Hfresh.
    apply in_map_iff in Hin. destruct Hin as (o' & Hname & Hkept).
    apply filter_In in Hkept. apply in_map_iff. exists o'. tauto.
Qed.

Lemma table_cities (items : list (string * Coords)) (env : Env)
    (s : Session) :
  let os := attempts env (List.length (requests_sent s)) items in
  map City (table_of (fetch_weather_data_over items env s))
  = map fst (filter succeeded os).
Proof.
  intros os. rewrite table_of_batch. apply rows_of_cities.
  intros city r Hin. apply attempts_In in Hin.
  destruct Hin as (i & item & Hi & Ho). inversion Ho; subst.
  symmetry in H1. apply (attempt_City _ _ _ _ H1).
Qed.

(** X6: when the names of the input table are distinct, no city
    appears twice in the result. *)
Theorem cities_are_not_repeated (items : list (string * Coords)) (env : Env)
    (s : Session) :
  NoDup (map fst items) ->
  NoDup (map City (table_of (fetch_weather_data_over items env s))).
Proof.
  intros H. rewrite table_cities. apply succeeded_cities_distinct.
  rewrite attempts_cities. exact H.
Qed.

Lemma target_cities_distinct : NoDup (map fst target_cities).
Proof.
  simpl. repeat constructor; simpl; intros H;
    repeat (destruct H as [H | H]; [ discriminate H | ]); exact H.
Defined.

Lemma cities_are_not_repeated_witness :
  NoDup (map fst target_cities)
  /\ NoDup (map City
             (table_of (fetch_weather_data_over target_cities
                          (env_one_down 2 (PInt 12) "2024-06-01T15:00")
                          fresh))).
Proof.
  split; [ exact target_cities_distinct | ].
  exact (cities_are_not_repeated _ _ _ target_cities_distinct).
Defined.

Lemma color_of_bucket (temp : value) (c : list Z) (q : Q) :
  well_formed temp = true ->
  temperature_Q temp = Some q ->
  color_of temp = Ok c ->
  c = bucket_color (bucket_of_Q q).
Proof.
  intros Hwf Hq Hc. unfold bucket_of_Q.
  destruct (color_of_cases _ _ Hc)
    as [[H20 H] | [(H20 & H10 & H) | (H20 & H10 & H)]]; rewrite H;
    pose proof (ge_20_Q _ _ _ Hwf Hq H20) as I20.
  - destruct (Qle_bool 20 q) eqn:E; [ reflexivity | ].
    exfalso. assert (Hle : (20 <= q)%Q) by (apply I20; reflexivity).
    apply Qle_bool_iff in Hle. congruence.
  - pose proof (ge_10_Q _ _ _ Hwf Hq H10) as I10.
    destruct (Qle_bool 20 q) eqn:E20.
    + apply Qle_bool_iff, I20 in E20. discriminate.
    + destruct (Qle_bool 10 q) eqn:E10; [ reflexivity | ].
      exfalso. assert (Hle : (10 <= q)%Q) by (apply I10; reflexivity).
      apply Qle_bool_iff in Hle. congruence.
  - pose proof (ge_10_Q _ _ _ Hwf Hq H10) as I10.
    destruct (Qle_bool 20 q) eqn:E20.
    + apply Qle_bool_iff, I20 in E20. discriminate.
    + destruct (Qle_bool 10 q) eqn:E10; [ | reflexivity ].
      apply Qle_bool_iff, I10 in E10. discriminate.
Qed.

Lemma bucket_of_Q_monotone (q1 q2 : Q) :
  (q1 <= q2)%Q -> bucket_rank (bucket_of_Q q1) <= bucket_rank (bucket_of_Q q2).
Proof.
  intros H. unfold bucket_of_Q.
  destruct (Qle_bool 20 q1) eqn:A1.
  - apply Qle_bool_iff in A1.
    assert (A2 : Qle_bool 20 q2 = true)
      by (apply Qle_bool_iff; eapply Qle_trans; eassumption).
    rewrite A2. simpl. lia.
  - destruct (Qle_bool 10 q1) eqn:B1.
    + apply Qle_bool_iff in B1.
      destruct (Qle_bool 20 q2); [ simpl; lia | ].
      assert (B2 : Qle_bool 10 q2 = true)
        by (apply Qle_bool_iff; eapply Qle_trans; eassumption).
      rewrite B2. simpl. lia.
    + destruct (Qle_bool 20 q2); [ simpl; lia | ].
      destruct (Qle_bool 10 q2); simpl; lia.
Qed.

(** X7: the colour never goes down when the temperature goes up: of two
    rows, the one with the larger temperature has a bucket at least as
    high (low, mid, high in that order). *)
Theorem warmer_never_gets_a_colder_colour
    (items1 items2 : list (string * Coords)) (env1 env2 : Env)
    (s1 s2 : Session) (r1 r2 : Row) (q1 q2 : Q) :
  In r1 (table_of (fetch_weather_data_over items1 env1 s1)) ->
  In r2 (table_of (fetch_weather_data_over items2 env2 s2)) ->
  well_formed (Temperature r1) = true ->
  well_formed (Temperature r2) = true ->
  temperature_Q (Temperature r1) = Some q1 ->
  temperature_Q (Temperature r2) = Some q2 ->
  (q1 <= q2)%Q ->
  exists b1 b2,
    color r1 = bucket_color b1 /\ color r2 = bucket_color b2
    /\ bucket_rank b1 <= bucket_rank b2.
Proof.
  intros Hin1 Hin2 Hwf1 Hwf2 Hq1 Hq2 Hle.
  exists (bucket_of_Q q1), (bucket_of_Q q2).
  split; [ | split ].
  - apply (color_of_bucket _ _ _ Hwf1 Hq1). eapply row_color; eassumption.
  - apply (color_of_bucket _ _ _ Hwf2 Hq2). eapply row_color; eassumption.
  - apply bucket_of_Q_monotone, Hle.
Qed.

Lemma warmer_never_gets_a_colder_colour_witness :
  In tokyo_cold
    (table_of (fetch_weather_data_over [tokyo]
                 (env_steady (PFloat (float_of_decimal (-32) 1))
                    "2024-06-01T15:00") fresh))
  /\ In tokyo_warm
       (table_of (fetch_weather_data_over [tokyo]
                    (env_steady (PFloat (float_of_decimal 225 1))
                       "2024-06-01T15:00") fresh))
  /\ well_formed (Temperature tokyo_cold) = true
  /\ well_formed (Temperature tokyo_warm) = true
  /\ temperature_Q (Temperature tokyo_cold)
     = Some (-7205759403792794 # 2251799813685248)
  /\ temperature_Q (Temperature tokyo_warm)
     = Some (6333186975989760 # 281474976710656)
  /\ (-7205759403792794 # 2251799813685248
      <= 6333186975989760 # 281474976710656)%Q
  /\ exists b1 b2,
       color tokyo_cold = bucket_color b1 /\ color tokyo_warm = bucket_color b2
       /\ bucket_rank b1 <= bucket_rank b2.
Proof.
  assert (H1 : In tokyo_cold
                 (table_of (fetch_weather_data_over [tokyo]
                              (env_steady (PFloat (float_of_decimal (-32) 1))
                                 "2024-06-01T15:00") fresh)))
    by (vm_compute; left; reflexivity).
  assert (H2 : In tokyo_warm
                 (table_of (fetch_weather_data_over [tokyo]
                              (env_steady (PFloat (float_of_decimal 225 1))
                                 "2024-06-01T15:00") fresh)))
    by (vm_compute; left; reflexivity).
  assert (W1 : well_formed (Temperature tokyo_cold) = true)
    by (vm_compute; reflexivity).
  assert (W2 : well_formed (Temperature tokyo_warm) = true)
    by (vm_compute; reflexivity).
  assert (Q1 : temperature_Q (Temperature tokyo_cold)
               = Some (-7205759403792794 # 2251799813685248))
    by (vm_compute; reflexivity).
  assert (Q2 : temperature_Q (Temperature tokyo_warm)
               = Some (6333186975989760 # 281474976710656))
    by (vm_compute; reflexivity).
  assert (L : (-7205759403792794 # 2251799813685248
               <= 6333186975989760 # 281474976710656)%Q)
    by (unfold Qle; simpl; lia).
  repeat (split; [ assumption | ]).
  exact (warmer_never_gets_a_colder_colour _ _ _ _ _ _ _ _ _ _
           H1 H2 W1 W2 Q1 Q2 L).
Defined.

Lemma raise_for_status_Ok (response : Response) :
  raise_for_status response = Ok tt
  <-> ~ (400 <= status_code response < 600).
Proof.
  unfold raise_for_status.
  destruct ((400 <=? status_code response) && (status_code response <? 500))
    eqn:E4.
  - apply andb_prop in E4. destruct E4 as [A B].
    apply Z.leb_le in A. apply Z.ltb_lt in B.
    destruct (Datetime.str_of_Z (status_code response)); simpl;
      (split; [ discriminate | lia ]).
  - destruct ((500 <=? status_code response) && (status_code response <? 600))
      eqn:E5.
    + apply andb_prop in E5. destruct E5 as [A B].
      apply Z.leb_le in A. apply Z.ltb_lt in B.
      destruct (Datetime.str_of_Z (status_code response)); simpl;
        (split; [ discriminate | lia ]).
    + simpl. split; [ | reflexivity ]. intros _ [A B].
      apply andb_false_iff in E4. apply andb_false_iff in E5.
      rewrite !Z.leb_gt, !Z.ltb_ge in *. lia.
Qed.

Lemma raise_for_status_error (response : Response) :
  400 <= status_code response < 600 ->
  raise_for_status response
  = Raise (mk_exn HTTPError
             (Datetime.str_of_Z (status_code response)
              ++ (if status_code response <? 500 then " Client Error: "
                  else " Server Error: ")
              ++ reason response ++ " for url: " ++ response_url response)).
Proof.
  intros H. unfold raise_for_status.
  destruct (status_code response <? 500) eqn:E.
  - apply Z.ltb_lt in E.
    replace (400 <=? status_code response) with true
      by (symmetry; apply Z.leb_le; lia).
    simpl. destruct (Datetime.str_of_Z (status_code response)); reflexivity.
  - apply Z.ltb_ge in E.
    replace (500 <=? status_code response) with true
      by (symmetry; apply Z.leb_le; lia).
    replace (status_code response <? 600) with true
      by (symmetry; apply Z.ltb_lt; lia).
    rewrite andb_false_r. simpl.
    destruct (Datetime.str_of_Z (status_code response)); reflexivity.
Qed.

Lemma number_has_color (temp : value) :
  is_number temp = true -> exists c, color_of temp = Ok c.
Proof.
  unfold color_of.
  destruct temp; simpl; try discriminate; intros _;
    repeat match goal with
           | |- context [if ?b then _ else _] => destruct b; simpl
           end; eauto.
Qed.

Lemma number_has_elevation (temp : value) :
  is_number temp = true -> exists e, mul temp 5000 = Ok e.
Proof.
  destruct temp; simpl; try discriminate; eauto.
Qed.

Lemma color_needs_number (temp : value) (c : list Z) :
  color_of temp = Ok c -> is_number temp = true.
Proof.
  unfold color_of. destruct temp; simpl; try discriminate; reflexivity.
Qed.

(** X1: a city gets a row exactly when its request returns a response
    whose status is outside 400..599 and whose JSON body has, under
    [current], a string [time] that the ISO parser accepts and a
    [temperature_2m] that is a number (an int, a float, NaN and the
    infinities included, or a bool). *)
Theorem row_exactly_for_well_formed_answers (env : Env) (k : nat)
    (item : string * Coords) :
  (exists r, attempt env k item = Ok r)
  <-> exists response body current time dt temp,
        http_get env k (request_for item) = inr response
        /\ ~ (400 <= status_code response < 600)
        /\ json_body response = inr body
        /\ getitem body "current" = Ok current
        /\ getitem current "time" = Ok (PStr time)
        /\ fromisoformat env time = inr dt
        /\ getitem current "temperature_2m" = Ok temp
        /\ is_number temp = true.
Proof.
  unfold attempt. split.
  - intros [r H].
    destruct (http_get env k (request_for item)) as [msg | response];
      [ discriminate | ].
    apply reading_Ok in H.
    destruct H as (body & current & time & dt & temp & H).
    destruct H as (Hs & Hb & Hc & Ht & Hdt & Htemp & Hcol & _).
    destruct time as [ | | | | t | | ]; simpl in Hdt; try discriminate.
    destruct (fromisoformat env t) as [msg | dt0] eqn:Hparse;
      [ discriminate | ].
    inversion Hdt; subst dt0.
    exists response, body, current, t, dt, temp.
    repeat split; try assumption.
    + apply raise_for_status_Ok, Hs.
    + eapply color_needs_number, Hcol.
  - intros (response & body & current & time & dt & temp & H).
    destruct H as (Hget & Hs & Hb & Hc & Ht & Hdt & Htemp & Hnum).
    rewrite Hget. unfold reading.
    apply raise_for_status_Ok in Hs. rewrite Hs. simpl.
    unfold json. rewrite Hb. simpl. rewrite Hc. simpl. rewrite Ht. simpl.
    rewrite Hdt. simpl. rewrite Htemp. simpl.
    destruct (number_has_color _ Hnum) as [c ->]. simpl.
    destruct (number_has_elevation _ Hnum) as [e ->]. simpl.
    eauto.
Qed.

Lemma all_attempts_succeed (env : Env) (items : list (string * Coords)) :
  forall k,
    (forall i item,
        nth_error items i = Some item ->
        exists r, attempt env (k + i) item = Ok r) ->
    errors_of (attempts env k items) = []
    /\ map City (rows_of (attempts env k items)) = map fst items.
Proof.
  induction items as [ | x rest IH ]; intros k H; simpl.
  - split; reflexivity.
  - destruct (H 0%nat x eq_refl) as [r Hr]. rewrite Nat.add_0_r in Hr.
    rewrite Hr. simpl.
    destruct (IH (S k)) as [He Hc].
    { intros i item Hi. destruct (H (S i) item Hi) as [r' Hr'].
      exists r'. rewrite <- Hr'. f_equal. lia. }
    split; [ exact He | ].
    rewrite Hc, (attempt_City _ _ _ _ Hr). reflexivity.
Qed.

(** X2: when every city's attempt succeeds, the table has one row per
    city, with the names of the input table in their order, and the
    batch draws no error box. *)
Theorem well_formed_answers_fill_the_table (items : list (string * Coords))
    (env : Env) (s : Session) :
  (forall i item,
      nth_error items i = Some item ->
      exists r, attempt env (List.length (requests_sent s) + i) item = Ok r) ->
  let run := fetch_weather_data_over items env s in
  map City (table_of run) = map fst items
  /\ List.length (table_of run) = List.length items
  /\ page (snd run) = page s.
Proof.
  intros H run.
  destruct (all_attempts_succeed env items _ H) as [He Hc].
  unfold run. rewrite table_of_batch, fetch_weather_data_over_spec. simpl.
  rewrite He, app_nil_r.
  split; [ exact Hc | split; [ | reflexivity ] ].
  rewrite <- (length_map City), Hc, length_map. reflexivity.
Qed.

Lemma steady_attempt (k : nat) (item : string * Coords) :
  exists r, attempt (env_steady (PInt 12) "2024-06-01T15:00") k item = Ok r.
Proof.
  destruct item as [city coords]. eexists. reflexivity.
Qed.

Lemma well_formed_answers_fill_the_table_witness :
  (forall i item,
      nth_error target_cities i = Some item ->
      exists r,
        attempt (env_steady (PInt 12) "2024-06-01T15:00")
          (List.length (requests_sent fresh) + i) item = Ok r)
  /\ map City
       (table_of (fetch_weather_data_over target_cities
                    (env_steady (PInt 12) "2024-06-01T15:00") fresh))
     = map fst target_cities
  /\ List.length
       (table_of (fetch_weather_data_over target_cities
                    (env_steady (PInt 12) "2024-06-01T15:00") fresh))
     = List.length target_cities
  /\ page (snd (fetch_weather_data_over target_cities
                  (env_steady (PInt 12) "2024-06-01T15:00") fresh))
     = page fresh.
Proof.
  assert (H : forall i item,
             nth_error target_cities i = Some item ->
             exists r,
               attempt (env_steady (PInt 12) "2024-06-01T15:00")
                 (List.length (requests_sent fresh) + i) item = Ok r)
    by (intros i item _; apply steady_attempt).
  split; [ exact H | ].
  exact (well_formed_answers_fill_the_table _ _ _ H).
Defined.

(** the error box of a failed attempt is on the page the batch leaves *)
Lemma failure_box (items : list (string * Coords)) (env : Env) (s : Session)
    (i : nat) (item : string * Coords) (e : exn) :
  nth_error items i = Some item ->
  attempt env (List.length (requests_sent s) + i) item = Raise e ->
  In (Error ("Error fetching " ++ fst item ++ ": " ++ exn_str e))
    (page (snd (fetch_weather_data_over items env s))).
Proof.
  intros Hi Ha. rewrite fetch_weather_data_over_spec. simpl.
  apply in_or_app. right. apply errors_of_In.
  apply (nth_error_In _ i).
  rewrite (attempts_nth _ _ _ _ _ Hi), Ha. reflexivity.
Qed.

(** X3: a response with a status from 400 to 599 never gives a row,
    whatever its body, and the page shows the box of the [HTTPError]:
    the status, "Client Error" below 500 and "Server Error" from 500,
    the reason and the URL. *)
Theorem error_status_fails_whatever_the_body (items : list (string * Coords))
    (env : Env) (s : Session) (i : nat) (city : string) (coords : Coords)
    (response : Response) :
  nth_error items i = Some (city, coords) ->
  http_get env (List.length (requests_sent s) + i)
    (request_for (city, coords)) = inr response ->
  400 <= status_code response < 600 ->
  (forall r, attempt env (List.length (requests_sent s) + i) (city, coords)
             <> Ok r)
  /\ In (Error ("Error fetching " ++ city ++ ": "
                ++ Datetime.str_of_Z (status_code response)
                ++ (if status_code response <? 500 then " Client Error: "
                    else " Server Error: ")
                ++ reason response ++ " for url: " ++ response_url response))
       (page (snd (fetch_weather_data_over items env s))).
Proof.
  intros Hi Hget Hstatus.
  assert (Ha : attempt env (List.length (requests_sent s) + i) (city, coords)
               = Raise (mk_exn HTTPError
                          (Datetime.str_of_Z (status_code response)
                           ++ (if status_code response <? 500
                               then " Client Error: " else " Server Error: ")
                           ++ reason response ++ " for url: "
                           ++ response_url response))).
  { unfold attempt. rewrite Hget. unfold reading.
    rewrite (raise_for_status_error _ Hstatus). reflexivity. }
  split; [ intros r Hr; rewrite Ha in Hr; discriminate | ].
  apply (failure_box _ _ _ _ _ _ Hi Ha).
Qed.

Lemma error_status_fails_whatever_the_body_witness :
  nth_error [tokyo] 0 = Some tokyo
  /\ http_get (env_replying not_found) (List.length (requests_sent fresh) + 0)
       (request_for tokyo) = inr not_found
  /\ 400 <= status_code not_found < 600
  /\ (forall r, attempt (env_replying not_found)
                  (List.length (requests_sent fresh) + 0) tokyo <> Ok r)
  /\ In (Error ("Error fetching Tokyo: 404 Client Error: Not Found for url: "
                ++ BASE_URL))
       (page (snd (fetch_weather_data_over [tokyo] (env_replying not_found)
                     fresh))).
Proof.
  assert (Hs : 400 <= status_code not_found < 600) by (simpl; lia).
  split; [ reflexivity | split; [ reflexivity | split; [ exact Hs | ] ] ].
  exact (error_status_fails_whatever_the_body [tokyo] (env_replying not_found)
           fresh 0 "Tokyo" (snd tokyo) not_found eq_refl eq_refl Hs).
Defined.

(** X4: a JSON object that lacks [current], or whose [current] lacks
    [time] or [temperature_2m], makes the city fail with the box that
    names the missing key; a [temperature_2m] that is null fails on the
    comparison with 20. *)
Theorem missing_field_is_reported (items : list (string * Coords))
    (env : Env) (s : Session) (i : nat) (city : string) (coords : Coords)
    (response : Response) (d : list (string * value)) :
  nth_error items i = Some (city, coords) ->
  http_get env (List.length (requests_sent s) + i)
    (request_for (city, coords)) = inr response ->
  ~ (400 <= status_code response < 600) ->
  json_body response = inr (PDict d) ->
  let shown (text : string) :=
    In (Error ("Error fetching " ++ city ++ ": " ++ text))
      (page (snd (fetch_weather_data_over items env s))) in
  (dict_get d "current" = None -> shown "'current'")
  /\ (forall c,
        dict_get d "current" = Some (PDict c) ->
        dict_get c "time" = None -> shown "'time'")
  /\ (forall c t dt,
        dict_get d "current" = Some (PDict c) ->
        dict_get c "time" = Some (PStr t) ->
        fromisoformat env t = inr dt ->
        (dict_get c "temperature_2m" = None -> shown "'temperature_2m'")
        /\ (dict_get c "temperature_2m" = Some PNone ->
            shown "'>=' not supported between instances of 'NoneType' and 'int'")).
Proof.
  intros Hi Hget Hstatus Hbody shown.
  assert (Hbox : forall e,
             reading env city coords response = Raise e ->
             shown (exn_str e)).
  { intros e He. unfold shown.
    apply (failure_box items env s i (city, coords) e Hi).
    unfold attempt. rewrite Hget. exact He. }
  apply raise_for_status_Ok in Hstatus.
  split; [ | split ].
  - intros Hc. apply (Hbox (mk_exn KeyError "'current'")).
    unfold reading, json. rewrite Hstatus, Hbody. simpl. rewrite Hc.
    reflexivity.
  - intros c Hc Ht. apply (Hbox (mk_exn KeyError "'time'")).
    unfold reading, json. rewrite Hstatus, Hbody. simpl. rewrite Hc. simpl.
    rewrite Ht. reflexivity.
  - intros c t dt Hc Ht Hdt. split; intros Htemp.
    + apply (Hbox (mk_exn KeyError "'temperature_2m'")).
      unfold reading, json. rewrite Hstatus, Hbody. simpl. rewrite Hc. simpl.
      rewrite Ht. simpl. rewrite Hdt. simpl. rewrite Htemp. reflexivity.
    + apply (Hbox (mk_exn TypeError
                     "'>=' not supported between instances of 'NoneType' and 'int'")).
      unfold reading, json. rewrite Hstatus, Hbody. simpl. rewrite Hc. simpl.
      rewrite Ht. simpl. rewrite Hdt. simpl. rewrite Htemp. reflexivity.
Qed.

Lemma missing_field_is_reported_witness :
  nth_error [tokyo] 0 = Some tokyo
  /\ http_get (env_replying empty_object)
       (List.length (requests_sent fresh) + 0) (request_for tokyo)
     = inr empty_object
  /\ ~ (400 <= status_code empty_object < 600)
  /\ json_body empty_object = inr (PDict [])
  /\ In (Error "Error fetching Tokyo: 'current'")
       (page (snd (fetch_weather_data_over [tokyo]
                     (env_replying empty_object) fresh))).
Proof.
  assert (Hs : ~ (400 <= status_code empty_object < 600)) by (simpl; lia).
  split; [ reflexivity | split; [ reflexivity | split; [ exact Hs | ] ] ].
  split; [ reflexivity | ].
  exact (proj1 (missing_field_is_reported [tokyo] (env_replying empty_object)
                  fresh 0 "Tokyo" (snd tokyo) empty_object [] eq_refl eq_refl
                  Hs eq_refl) eq_refl).
Defined.

Lemma fetch_weather_data_expired (env : Env) (now : Z) (s : Session) :
  expired now s = true -> fetch_weather_data env now s = miss env now s.
Proof.
  unfold expired. intros H. rewrite fetch_weather_data_spec.
  destruct (cache s) as [entry | ]; [ | reflexivity ].
  destruct (now - stored_at entry <? 600); [ discriminate | reflexivity ].
Qed.

Lemma listing_of_table (rows : list Row) :
  getitem_columns (pd_DataFrame rows) ["City"; "Temperature"; "Time"]
  = match rows with
    | [] => Raise (mk_exn KeyError "None of the labels are in the [columns]")
    | _ :: _ =>
        Ok {| columns := ["City"; "Temperature"; "Time"]; records := rows |}
    end.
Proof. destruct rows; reflexivity. Qed.

(** one run of the script when the cache does not answer *)
Lemma run_script_expired (env : Env) (now : Z) (clicked : bool) (s : Session) :
  expired now s = true ->
  let os := attempts env (List.length (requests_sent s)) target_cities in
  let sent := (requests_sent s ++ map request_for target_cities)%list in
  run_script env now clicked s =
    match rows_of os with
    | [] =>
        (Raise (mk_exn KeyError "None of the labels are in the [columns]"),
         {| requests_sent := sent;
            page := page_head (errors_of os);
            cache := Some (entry_of env now s) |})
    | _ :: _ =>
        if clicked then
          (Raise (mk_exn RerunException ""),
           {| requests_sent := sent;
              page := (page_head (errors_of os)
                       ++ page_listing (rows_of os))%list;
              cache := None |})
        else
          (Ok tt,
           {| requests_sent := sent;
              page := (page_head (errors_of os) ++ page_listing (rows_of os)
                       ++ page_map (rows_of os))%list;
              cache := Some (entry_of env now s) |})
    end.
Proof.
  intros Hexp os sent.
  unfold run_script, script, bind at 1, draw at 1.
  unfold bind at 1.
  rewrite fetch_weather_data_expired by exact Hexp.
  unfold miss. cbn [requests_sent page cache].
  fold os. fold sent.
  unfold bind at 1, draw at 1. cbn [requests_sent page cache].
  unfold bind at 1, lift. rewrite listing_of_table.
  unfold page_head, page_listing, page_map, deck_of, entry_of. fold os.
  destruct (rows_of os) as [ | r rows ].
  - cbn [app]. reflexivity.
  - destruct clicked;
      cbv [bind draw st_button refresh st_cache_data_clear st_rerun ret];
      cbn [requests_sent page cache app];
      repeat rewrite <- app_assoc; cbn [app]; reflexivity.
Qed.

(** one run of the script served from the cache *)
Lemma run_script_cached (env : Env) (now : Z) (clicked : bool) (s : Session)
    (entry : CacheEntry) (rows : list Row) :
  cache s = Some entry ->
  now - stored_at entry < 600 ->
  cached_value entry = pd_DataFrame rows ->
  run_script env now clicked s =
    match rows with
    | [] =>
        (Raise (mk_exn KeyError "None of the labels are in the [columns]"),
         {| requests_sent := requests_sent s;
            page := page_head (cached_elements entry);
            cache := Some entry |})
    | _ :: _ =>
        if clicked then
          (Raise (mk_exn RerunException ""),
           {| requests_sent := requests_sent s;
              page := (page_head (cached_elements entry)
                       ++ page_listing rows)%list;
              cache := None |})
        else
          (Ok tt,
           {| requests_sent := requests_sent s;
              page := (page_head (cached_elements entry) ++ page_listing rows
                       ++ page_map rows)%list;
              cache := Some entry |})
    end.
Proof.
  intros Hcache Hyoung Hvalue.
  unfold run_script, script, bind at 1, draw at 1.
  unfold bind at 1.
  rewrite fetch_weather_data_spec. cbn [requests_sent page cache].
  rewrite Hcache. apply Z.ltb_lt in Hyoung. rewrite Hyoung, Hvalue.
  unfold bind at 1, draw at 1. cbn [requests_sent page cache].
  unfold bind at 1, lift. rewrite listing_of_table.
  unfold page_head, page_listing, page_map, deck_of.
  destruct rows as [ | r rows ].
  - cbn [app]. reflexivity.
  - destruct clicked;
      cbv [bind draw st_button refresh st_cache_data_clear st_rerun ret];
      cbn [requests_sent page cache app];
      repeat rewrite <- app_assoc; cbn [app]; reflexivity.
Qed.

(** after a run without a click on an expired cache, the cache holds the
    entry of that run *)
Lemma run_script_stores (env : Env) (now : Z) (s : Session) :
  expired now s = true ->
  let s1 := snd (run_script env now false s) in
  cache s1 = Some (entry_of env now s)
  /\ requests_sent s1
     = (requests_sent s ++ map request_for target_cities)%list.
Proof.
  intros Hexp. cbv zeta. rewrite (run_script_expired env now false s Hexp).
  destruct (rows_of _); split; reflexivity.
Qed.

(** X11: when the cache does not answer, a run of the script without a
    click ends normally exactly when at least one city got a row;
    otherwise it ends on an exception. *)
Theorem page_is_drawn_exactly_when_a_city_answers (env : Env) (now : Z)
    (s : Session) :
  expired now s = true ->
  fst (run_script env now false s) = Ok tt
  <-> table_of (fetch_weather_data_over target_cities env s) <> [].
Proof.
  intros Hexp. rewrite (run_script_expired env now false s Hexp).
  rewrite table_of_batch.
  destruct (rows_of _); simpl; split; congruence.
Qed.

Lemma page_is_drawn_exactly_when_a_city_answers_witness :
  expired 0 fresh = true
  /\ (fst (run_script (env_steady (PInt 12) "2024-06-01T15:00") 0 false fresh)
      = Ok tt
      <-> table_of (fetch_weather_data_over target_cities
                      (env_steady (PInt 12) "2024-06-01T15:00") fresh)
          <> []).
Proof.
  split; [ reflexivity | ].
  exact (page_is_drawn_exactly_when_a_city_answers _ 0 fresh eq_refl).
Defined.

(** X12: when the cache does not answer and at least one city got a
    row, the page is, in this order: the title, the error boxes of the
    failed cities, the listing header, the listing of the fetched rows
    under the columns City, Temperature and Time, the note, the button,
    the map header and the chart, whose layer holds the same rows; every
    column the layer and the tooltip name is a column of that table. *)
Theorem table_and_chart_show_the_fetched_rows (env : Env) (now : Z)
    (s : Session) :
  expired now s = true ->
  let os := attempts env (List.length (requests_sent s)) target_cities in
  let table := table_of (fetch_weather_data_over target_cities env s) in
  table <> [] ->
  page (snd (run_script env now false s))
  = (page_head (errors_of os) ++ page_listing table ++ page_map table)%list
  /\ forallb (has_column (pd_DataFrame table))
       ["lon"; "lat"; "elevation"; "color"; "City"; "Temperature"; "Time"]
     = true.
Proof.
  intros Hexp os table Hne. unfold table in *.
  rewrite table_of_batch in *. fold os in Hne |- *.
  rewrite (run_script_expired env now false s Hexp). fold os.
  destruct (rows_of os) as [ | r rows ]; [ congruence | ].
  split; reflexivity.
Qed.

Lemma table_and_chart_show_the_fetched_rows_witness :
  let env := env_steady (PInt 12) "2024-06-01T15:00" in
  let table := table_of (fetch_weather_data_over target_cities env fresh) in
  expired 0 fresh = true
  /\ table <> []
  /\ page (snd (run_script env 0 false fresh))
     = (page_head
          (errors_of (attempts env (List.length (requests_sent fresh))
                        target_cities))
        ++ page_listing table ++ page_map table)%list
  /\ forallb (has_column (pd_DataFrame table))
       ["lon"; "lat"; "elevation"; "color"; "City"; "Temperature"; "Time"]
     = true.
Proof.
  intros env table.
  assert (Hne : table <> []) by (vm_compute; discriminate).
  split; [ reflexivity | split; [ exact Hne | ] ].
  exact (table_and_chart_show_the_fetched_rows env 0 fresh eq_refl Hne).
Defined.

(** X15: a cycle in which no city answered is cached like any other:
    for the next 600 seconds every run, whatever the network has become
    and whether or not it was started by a click, sends no request and
    ends on the same [KeyError], with neither the refresh button nor the
    chart on the page. *)
Theorem failed_cycle_is_served_until_it_expires (env env' : Env)
    (now now' : Z) (clicked : bool) (s : Session) :
  expired now s = true ->
  table_of (fetch_weather_data_over target_cities env s) = [] ->
  now' - now < 600 ->
  let s1 := snd (run_script env now false s) in
  let again := run_script env' now' clicked s1 in
  fst again
  = Raise (mk_exn KeyError "None of the labels are in the [columns]")
  /\ requests_sent (snd again) = requests_sent s1
  /\ existsb is_button (page (snd again)) = false
  /\ existsb is_chart (page (snd again)) = false.
Proof.
  intros Hexp Hempty Hyoung s1 again.
  destruct (run_script_stores env now s Hexp) as [Hcache _]. fold s1 in Hcache.
  rewrite table_of_batch in Hempty.
  unfold again.
  rewrite (run_script_cached env' now' clicked s1 (entry_of env now s) []
             Hcache Hyoung)
    by (unfold entry_of; rewrite Hempty; reflexivity).
  cbn [fst snd requests_sent page].
  split; [ reflexivity | split; [ reflexivity | ] ].
  unfold page_head, entry_of. cbn [cached_elements existsb is_button is_chart orb].
  assert (Herr : forall os, existsb is_button (errors_of os) = false
                            /\ existsb is_chart (errors_of os) = false).
  { clear. induction os as [ | [c [r | e]] os IH ]; simpl; auto. }
  destruct (Herr (attempts env (List.length (requests_sent s)) target_cities))
    as [Hb Hc].
  rewrite !existsb_app, Hb, Hc. split; reflexivity.
Qed.

Lemma failed_cycle_is_served_until_it_expires_witness :
  let s1 := snd (run_script env_down 0 false fresh) in
  let again :=
    run_script (env_steady (PInt 12) "2024-06-01T15:00") 599 true s1 in
  expired 0 fresh = true
  /\ table_of (fetch_weather_data_over target_cities env_down fresh) = []
  /\ 599 - 0 < 600
  /\ fst again
     = Raise (mk_exn KeyError "None of the labels are in the [columns]")
  /\ requests_sent (snd again) = requests_sent s1
  /\ existsb is_button (page (snd again)) = false
  /\ existsb is_chart (page (snd again)) = false.
Proof.
  intros s1 again.
  assert (He : table_of (fetch_weather_data_over target_cities env_down fresh)
               = []) by (vm_compute; reflexivity).
  assert (Hy : 599 - 0 < 600) by lia.
  split; [ reflexivity | split; [ exact He | split; [ exact Hy | ] ] ].
  exact (failed_cycle_is_served_until_it_expires env_down
           (env_steady (PInt 12) "2024-06-01T15:00") 0 599 true fresh
           eq_refl He Hy).
Defined.

(** X13: a run less than 600 seconds after a run that fetched sends no
    request, ends as that run ended and gets the table that run
    fetched, whatever the network has become. *)
Theorem reload_within_ttl_sends_nothing (env env' : Env) (now now' : Z)
    (s : Session) :
  expired now s = true ->
  now' - now < 600 ->
  let s1 := snd (run_script env now false s) in
  requests_sent (snd (run_script env' now' false s1)) = requests_sent s1
  /\ fst (run_script env' now' false s1) = fst (run_script env now false s)
  /\ table_of (fetch_weather_data env' now' s1)
     = table_of (fetch_weather_data_over target_cities env s).
Proof.
  intros Hexp Hyoung s1.
  destruct (run_script_stores env now s Hexp) as [Hcache _]. fold s1 in Hcache.
  rewrite (run_script_cached env' now' false s1 (entry_of env now s)
             (rows_of (attempts env (List.length (requests_sent s))
                         target_cities)) Hcache Hyoung eq_refl).
  rewrite (run_script_expired env now false s Hexp).
  rewrite fetch_weather_data_spec, Hcache.
  pose proof Hyoung as Hy. apply Z.ltb_lt in Hy.
  unfold entry_of. cbn [stored_at]. rewrite Hy. rewrite table_of_batch.
  unfold table_of. cbn [fst snd cached_value pd_DataFrame records].
  destruct (rows_of _); repeat split; reflexivity.
Qed.

Lemma reload_within_ttl_sends_nothing_witness :
  let env := env_steady (PInt 12) "2024-06-01T15:00" in
  let s1 := snd (run_script env 0 false fresh) in
  expired 0 fresh = true
  /\ 599 - 0 < 600
  /\ requests_sent (snd (run_script env_down 599 false s1)) = requests_sent s1
  /\ fst (run_script env_down 599 false s1) = fst (run_script env 0 false fresh)
  /\ table_of (fetch_weather_data env_down 599 s1)
     = table_of (fetch_weather_data_over target_cities env fresh).
Proof.
  intros env s1.
  assert (Hy : 599 - 0 < 600) by lia.
  split; [ reflexivity | split; [ exact Hy | ] ].
  exact (reload_within_ttl_sends_nothing env env_down 0 599 fresh eq_refl Hy).
Defined.

(** X14: a run 600 seconds or more after a run that fetched sends one
    request per city again, and its table is made of the new
    responses. *)
Theorem reload_after_ttl_fetches_again (env env' : Env) (now now' : Z)
    (s : Session) :
  expired now s = true ->
  600 <= now' - now ->
  let s1 := snd (run_script env now false s) in
  requests_sent (snd (run_script env' now' false s1))
  = (requests_sent s1 ++ map request_for target_cities)%list
  /\ table_of (fetch_weather_data env' now' s1)
     = rows_of (attempts env' (List.length (requests_sent s1)) target_cities).
Proof.
  intros Hexp Hold s1.
  destruct (run_script_stores env now s Hexp) as [Hcache _]. fold s1 in Hcache.
  assert (Hexp' : expired now' s1 = true).
  { unfold expired. rewrite Hcache. cbn [stored_at entry_of].
    apply negb_true_iff, Z.ltb_ge. exact Hold. }
  split.
  - rewrite (run_script_expired env' now' false s1 Hexp').
    destruct (rows_of _); reflexivity.
  - rewrite (fetch_weather_data_expired env' now' s1 Hexp'). reflexivity.
Qed.

Lemma reload_after_ttl_fetches_again_witness :
  let env := env_steady (PInt 12) "2024-06-01T15:00" in
  let s1 := snd (run_script env_down 0 false fresh) in
  expired 0 fresh = true
  /\ 600 <= 600 - 0
  /\ requests_sent (snd (run_script env 600 false s1))
     = (requests_sent s1 ++ map request_for target_cities)%list
  /\ table_of (fetch_weather_data env 600 s1)
     = rows_of (attempts env (List.length (requests_sent s1)) target_cities).
Proof.
  intros env s1.
  assert (Ho : 600 <= 600 - 0) by lia.
  split; [ reflexivity | split; [ exact Ho | ] ].
  exact (reload_after_ttl_fetches_again env_down env 0 600 fresh eq_refl Ho).
Defined.

(** X16: a click on the refresh button when the cache has expired costs
    two fetch cycles when at least one city answers in the run started
    by the click (that run fetches before it reaches the button, and
    the rerun fetches again), and one cycle when no city answers (that
    run stops on the [KeyError] before the button, so nothing is
    cleared and nothing reruns). *)
Theorem cost_of_a_click_on_an_expired_cache (env : Env) (now now' : Z)
    (s : Session) :
  expired now s = true ->
  let cycle := map request_for target_cities in
  let table := table_of (fetch_weather_data_over target_cities env s) in
  requests_sent (snd (serve env now now' true s))
  = (requests_sent s ++ cycle
     ++ match table with [] => [] | _ :: _ => cycle end)%list
  /\ (table = [] ->
      fst (serve env now now' true s)
      = Raise (mk_exn KeyError "None of the labels are in the [columns]")).
Proof.
  intros Hexp cycle table. unfold table, cycle.
  rewrite table_of_batch.
  unfold serve. rewrite (run_script_expired env now true s Hexp).
  destruct (rows_of _) as [ | r rows ].
  - cbn [exn_class_of fst snd requests_sent]. rewrite app_nil_r.
    split; reflexivity.
  - cbn [exn_class_of].
    rewrite run_script_expired by reflexivity.
    cbn [requests_sent]. rewrite <- app_assoc.
    split; [ destruct (rows_of _); reflexivity | discriminate ].
Qed.

Lemma cost_of_a_click_on_an_expired_cache_witness :
  let env := env_steady (PInt 12) "2024-06-01T15:00" in
  expired 0 fresh = true
  /\ requests_sent (snd (serve env 0 1 true fresh))
     = (requests_sent fresh ++ map request_for target_cities
        ++ map request_for target_cities)%list
  /\ requests_sent (snd (serve env_down 0 1 true fresh))
     = (requests_sent fresh ++ map request_for target_cities)%list.
Proof.
  intros env.
  split; [ reflexivity | ].
  split.
  - exact (proj1 (cost_of_a_click_on_an_expired_cache env 0 1 fresh eq_refl)).
  - exact (proj1 (cost_of_a_click_on_an_expired_cache env_down 0 1 fresh
                    eq_refl)).
Defined.

Lemma attempts_app (env : Env) (l1 l2 : list (string * Coords)) :
  forall k,
    attempts env k (l1 ++ l2)
    = (attempts env k l1 ++ attempts env (k + List.length l1) l2)%list.
Proof.
  induction l1 as [ | x l1 IH ]; intros k; simpl.
  - rewrite Nat.add_0_r. reflexivity.
  - rewrite IH. rewrite Nat.add_succ_r. reflexivity.
Qed.

Lemma errors_of_app (os os' : list (string * result Row)) :
  errors_of (os ++ os') = (errors_of os ++ errors_of os')%list.
Proof.
  induction os as [ | [city [r | e]] os IH ]; simpl; congruence.
Qed.

(** X10: the batch over a concatenated table is the batch over the
    first part followed by the batch over the second part, started in
    the session the first leaves: same table, same session. *)
Theorem batch_of_a_concatenation (l1 l2 : list (string * Coords)) (env : Env)
    (s : Session) :
  let first := fetch_weather_data_over l1 env s in
  let second := fetch_weather_data_over l2 env (snd first) in
  table_of (fetch_weather_data_over (l1 ++ l2) env s)
  = (table_of first ++ table_of second)%list
  /\ snd (fetch_weather_data_over (l1 ++ l2) env s) = snd second.
Proof.
  cbv zeta. rewrite !table_of_batch. rewrite !fetch_weather_data_over_spec.
  cbn [snd requests_sent page cache].
  rewrite length_app, length_map, attempts_app, rows_of_app, errors_of_app.
  rewrite map_app, !app_assoc. split; reflexivity.
Qed.
